(** * onepassword: a shallow embedding of [onepassword/onepassword.py]

    The library shells out to the 1Password command-line tool [op],
    captures its output and decodes it.  The embedding keeps the shape
    of the Python source:

    - the operating system, [json.loads] and [packaging.version.Version]
      are not code of the package; they are the fields of an
      environment [Env];
    - every function of the module is a computation in a state and
      exception monad [M]; the state [World] holds the log of the calls
      made to [subprocess.run] and the store of the [OnePassword]
      objects created so far;
    - Python exceptions are the constructors of [exn]; [try]/[except]
      is [try_except], whose handler names the exception class it
      catches. *)

From Stdlib Require Import String Ascii List ZArith NArith Bool Lia.
From Stdlib Require Import Strings.Byte.
Import ListNotations.
Local Open Scope string_scope.
Local Open Scope list_scope.
Set Warnings "-register-all".

(** ** The Python runtime used by the module *)

Module Py.

(** [bytes] objects. *)
Definition bytes := list byte.

(** A bytes literal of printable text. *)
Definition b (s : string) : bytes := list_byte_of_string s.

(** The text with the same code units as a bytes object. *)
Definition text_of (x : bytes) : string := string_of_list_byte x.

(** [sep.join(l)]. *)
Definition join (sep : string) (l : list string) : string :=
  String.concat sep l.

(** Truth value of an optional list argument: [None] and the empty list
    are false. *)
Definition truthy {A : Type} (l : option (list A)) : bool :=
  match l with
  | None => false
  | Some [] => false
  | Some (_ :: _) => true
  end.

Definition squote : N := 39.
Definition dquote : N := 34.
Definition backslash : N := 92.

Definition chr (n : N) : string := String (ascii_of_N n) EmptyString.

Definition hexdigit (n : N) : string :=
  chr (if (n <? 10)%N then 48 + n else 87 + n)%N.

(** One byte of [repr(x)] for a bytes object, with [quote] the quote
    character chosen for the whole literal. *)
Definition repr_byte (quote : N) (c : byte) : string :=
  let n := Byte.to_N c in
  if ((n =? quote) || (n =? backslash))%N then chr backslash ++ chr n
  else if (n =? 9)%N then chr backslash ++ "t"
  else if (n =? 10)%N then chr backslash ++ "n"
  else if (n =? 13)%N then chr backslash ++ "r"
  else if ((n <? 32) || (127 <=? n))%N then
    chr backslash ++ "x" ++ hexdigit (N.shiftr (N.land n 240) 4)
                  ++ hexdigit (N.land n 15)
  else chr n.

Definition has_byte (n : N) (x : bytes) : bool :=
  existsb (fun c => (Byte.to_N c =? n)%N) x.

(** The quote of the literal: a single quote, unless the bytes hold a
    single quote and no double quote. *)
Definition repr_quote (x : bytes) : N :=
  if has_byte squote x && negb (has_byte dquote x) then dquote else squote.

Fixpoint repr_body (quote : N) (x : bytes) : string :=
  match x with
  | [] => EmptyString
  | c :: x' => repr_byte quote c ++ repr_body quote x'
  end.

(** [repr(x)] of a bytes object, which is also what an f-string prints
    for it. *)
Definition bytes_repr (x : bytes) : string :=
  let q := repr_quote x in
  "b" ++ chr q ++ repr_body q x ++ chr q.

(** [repr(s)] of a key in the text of a [KeyError]; the keys used here
    are plain identifiers. *)
Definition key_repr (k : string) : string := chr squote ++ k ++ chr squote.

(** [needle in hay] on text. *)
Fixpoint str_in (needle hay : string) : bool :=
  String.prefix needle hay ||
  match hay with
  | EmptyString => false
  | String _ hay' => str_in needle hay'
  end.

(** Decoded JSON documents: what [json.loads] returns.  An object is a
    [dict]; its pairs are kept in insertion order, keys distinct.  A
    float is kept as the numeral of the document. *)
Inductive json : Type :=
| JNull
| JBool (v : bool)
| JInt (v : Z)
| JFloat (literal : string)
| JStr (v : string)
| JList (items : list json)
| JDict (pairs : list (string * json)).

Fixpoint dict_get (k : string) (pairs : list (string * json)) : option json :=
  match pairs with
  | [] => None
  | (k', v) :: rest => if String.eqb k k' then Some v else dict_get k rest
  end.

(** [x[k]] with a text key [k]: only a [dict] can be indexed by text.
    The result is the entry, or the key when it is missing, or the text
    of the [TypeError] (as CPython 3.12 words it). *)
Inductive subscript_result : Type :=
| Entry (v : json)
| MissingKey (k : string)
| BadOperand (msg : string).

Definition subscript (x : json) (k : string) : subscript_result :=
  match x with
  | JDict pairs =>
      match dict_get k pairs with
      | Some v => Entry v
      | None => MissingKey k
      end
  | JList _ => BadOperand "list indices must be integers or slices, not str"
  | JStr _ => BadOperand "string indices must be integers, not 'str'"
  | JInt _ => BadOperand "'int' object is not subscriptable"
  | JFloat _ => BadOperand "'float' object is not subscriptable"
  | JBool _ => BadOperand "'bool' object is not subscriptable"
  | JNull => BadOperand "'NoneType' object is not subscriptable"
  end.

End Py.

(** ** exceptions.py, and the built-in exceptions that reach the module *)

Module Opex.

Inductive exn : Type :=
| OnePasswordCLINotFound (msg : string)
| OnePasswordValueNotFound (msg : string)
| OnePasswordJSONError (msg : string)
| OnePasswordRuntimeError (msg : string)
| FileNotFoundError (msg : string)
| OSError (msg : string)
| JSONDecodeError (msg : string)
| UnicodeDecodeError (msg : string)
| InvalidVersion (text : string)
| KeyError (key : string)
| TypeError (msg : string)
| AttributeError (msg : string)
| ValueError (msg : string)
| RecursionError (msg : string).

(** The classes that derive from [OnePasswordException]. *)
Definition is_OnePasswordException (e : exn) : bool :=
  match e with
  | OnePasswordCLINotFound _ | OnePasswordValueNotFound _
  | OnePasswordJSONError _ | OnePasswordRuntimeError _ => true
  | _ => false
  end.

(** [str(e)] of a [KeyError], as an f-string prints it: the [repr] of
    the missing key. *)
Definition KeyError_str (key : string) : string := Py.key_repr key.

End Opex.

Import Py Opex.

(** ** The environment of the package *)

(** One call of [subprocess.run]: the argument vector, and whether
    [text=True] was passed ([capture_output=True] always is). *)
Record invocation : Type := Invoke {
  inv_args : list string;
  inv_text : bool
}.

(** What a finished child process leaves behind. *)
Record exit (A : Type) : Type := Exit {
  exit_status : Z;
  exit_out : A;
  exit_err : A
}.
Arguments Exit {A} _ _ _.
Arguments exit_status {A} _.
Arguments exit_out {A} _.
Arguments exit_err {A} _.

(** Why the operating system could not start a child process: the
    program is not on the path ([FileNotFoundError]), or any other
    operating-system error. *)
Inductive os_failure : Type :=
| NotFound (msg : string)
| OtherError (msg : string).

(** Why a run with [text=True] gave no result: the child could not be
    started, or it ran and its output is not text in the encoding of
    the locale. *)
Inductive text_failure : Type :=
| NotStarted (f : os_failure)
| NotDecoded (msg : string).

(** Why [subprocess.run] raises instead of returning:
    - the program is not on the path ([FileNotFoundError]);
    - any other operating-system error ([OSError]);
    - an argument holds a NUL character ([ValueError], raised before
      any child is started);
    - with [text=True], the child ran and its output does not decode
      ([UnicodeDecodeError]). *)
Inductive launch_failure : Type :=
| BinaryNotFound (msg : string)
| LaunchError (msg : string)
| BadArgument (msg : string)
| OutputNotText (msg : string).

(** Why [json.loads] rejects a bytes object: the text is not a JSON
    document ([JSONDecodeError]), the bytes are not encoded text
    ([UnicodeDecodeError]), an integer of the document has more digits
    than the interpreter converts (a plain [ValueError]), or the
    document is nested too deeply ([RecursionError]). *)
Inductive loads_failure : Type :=
| NotJSON (msg : string)
| NotText (msg : string)
| TooManyDigits (msg : string)
| TooDeep (msg : string).

(** The world outside the package:
    - [Version] and [Version_parse]: the versions of [packaging] and
      its parser, which rejects a text with [InvalidVersion];
    - [json_loads]: the decoder of the standard library;
    - [os_spawn past cmd]: what the operating system does when asked to
      run [cmd] with its output captured as bytes, after the calls
      [past];
    - [os_spawn_text past cmd]: the same for a run whose output is
      decoded to text.
    A child process may answer differently from one call to the next,
    which is why both see the calls made so far. *)
Record Env : Type := {
  Version : Type;
  Version_parse : string -> option Version;
  json_loads : bytes -> json + loads_failure;
  os_spawn : list invocation -> list string -> exit bytes + os_failure;
  os_spawn_text : list invocation -> list string -> exit string + text_failure
}.

(** An argument vector with a NUL character in one of its arguments. *)
Fixpoint holds_nul (s : string) : bool :=
  match s with
  | EmptyString => false
  | String a s' => (N_of_ascii a =? 0)%N || holds_nul s'
  end.

Definition has_nul (cmd : list string) : bool := existsb holds_nul cmd.

Definition os_launch_failure (f : os_failure) : launch_failure :=
  match f with
  | NotFound msg => BinaryNotFound msg
  | OtherError msg => LaunchError msg
  end.

(** What [subprocess.run(cmd, capture_output=True)] comes to, after the
    calls [past]: arguments with a NUL character are refused before the
    operating system is asked for anything. *)
Definition spawn (E : Env) (past : list invocation) (cmd : list string)
  : exit bytes + launch_failure :=
  if has_nul cmd then inr (BadArgument "embedded null byte")
  else
    match os_spawn E past cmd with
    | inl x => inl x
    | inr f => inr (os_launch_failure f)
    end.

(** What [subprocess.run(cmd, capture_output=True, text=True)] comes
    to. *)
Definition spawn_text (E : Env) (past : list invocation) (cmd : list string)
  : exit string + launch_failure :=
  if has_nul cmd then inr (BadArgument "embedded null byte")
  else
    match os_spawn_text E past cmd with
    | inl x => inl x
    | inr (NotStarted f) => inr (os_launch_failure f)
    | inr (NotDecoded msg) => inr (OutputNotText msg)
    end.

Arguments spawn : simpl never.
Arguments spawn_text : simpl never.

(** [subprocess.CompletedProcess]. *)
Record CompletedProcess (A : Type) : Type := Completed {
  args : list string;
  returncode : Z;
  stdout : A;
  stderr : A
}.
Arguments Completed {A} _ _ _ _.
Arguments args {A} _.
Arguments returncode {A} _.
Arguments stdout {A} _.
Arguments stderr {A} _.

Inductive result (A : Type) : Type :=
| Ok (a : A)
| Raise (e : exn).
Arguments Ok {A} _.
Arguments Raise {A} _.

Section Package.

Variable E : Env.

(** An instance of class [OnePassword]: its two attributes. *)
Record OnePassword : Type := mkOnePassword {
  op_cli_version : Version E;
  vault : string
}.

(** References to instances. *)
Definition ref := nat.

Record World : Type := mkWorld {
  calls : list invocation;
  objects : list OnePassword
}.

Definition M (A : Type) : Type := World -> result A * World.

Definition ret {A : Type} (a : A) : M A := fun w => (Ok a, w).

Definition raise {A : Type} (e : exn) : M A := fun w => (Raise e, w).

Definition bind {A B : Type} (m : M A) (k : A -> M B) : M B :=
  fun w =>
    match m w with
    | (Ok a, w') => k a w'
    | (Raise e, w') => (Raise e, w')
    end.

(** [try: body except ...: handler]; [handler e] is [None] when no
    [except] clause matches [e]. *)
Definition try_except {A : Type} (body : M A) (handler : exn -> option (M A))
  : M A :=
  fun w =>
    match body w with
    | (Ok a, w') => (Ok a, w')
    | (Raise e, w') =>
        match handler e with
        | Some h => h w'
        | None => (Raise e, w')
        end
    end.

End Package.

Arguments ret {E A} _ _.
Arguments raise {E A} _ _.
Arguments bind {E A B} _ _ _.
Arguments try_except {E A} _ _ _.
Arguments calls {E} _.
Arguments objects {E} _.
Arguments mkWorld {E} _ _.
Arguments vault {E} _.
Arguments op_cli_version {E} _.
Arguments mkOnePassword {E} _ _.

Declare Scope py_scope.
Delimit Scope py_scope with py.
Notation "x <- m ;; k" := (bind m (fun x => k))
  (at level 61, m at next level, right associativity) : py_scope.
Local Open Scope py_scope.

(** ** onepassword.py *)

Section Functions.

Variable E : Env.

Definition log (i : invocation) (w : World E) : World E :=
  mkWorld (calls w ++ [i]) (objects w).

Definition launch_exn (f : launch_failure) : exn :=
  match f with
  | BinaryNotFound msg => FileNotFoundError msg
  | LaunchError msg => OSError msg
  | BadArgument msg => ValueError msg
  | OutputNotText msg => UnicodeDecodeError msg
  end.

(** [subprocess.run(cmd, capture_output=True)]: the call is logged, the
    child runs to its end, and its output comes back as bytes.  When
    no child can be run the call raises what [spawn] says: the
    [ValueError] for a NUL character in an argument, the
    [FileNotFoundError] for a missing program, or another [OSError]. *)
Definition subprocess_run (cmd : list string) : M E (CompletedProcess bytes) :=
  fun w =>
    match spawn E (calls w) cmd with
    | inl x =>
        (Ok (Completed cmd (exit_status x) (exit_out x) (exit_err x)),
         log (Invoke cmd false) w)
    | inr f => (Raise (launch_exn f), log (Invoke cmd false) w)
    end.

(** [subprocess.run(cmd, capture_output=True, text=True)]: the same,
    with the output decoded to text; output that does not decode makes
    the call raise [UnicodeDecodeError]. *)
Definition subprocess_run_text (cmd : list string)
  : M E (CompletedProcess string) :=
  fun w =>
    match spawn_text E (calls w) cmd with
    | inl x =>
        (Ok (Completed cmd (exit_status x) (exit_out x) (exit_err x)),
         log (Invoke cmd true) w)
    | inr f => (Raise (launch_exn f), log (Invoke cmd true) w)
    end.

(** [Version(text)] of [packaging.version]. *)
Definition Version_ (text : string) : M E (Version E) :=
  match Version_parse E text with
  | Some v => ret v
  | None => raise (InvalidVersion text)
  end.

(** [json.loads(data)], with the four exceptions it can raise on a
    bytes object. *)
Definition loads (data : bytes) : M E json :=
  match json_loads E data with
  | inl j => ret j
  | inr (NotJSON msg) => raise (JSONDecodeError msg)
  | inr (NotText msg) => raise (UnicodeDecodeError msg)
  | inr (TooManyDigits msg) => raise (ValueError msg)
  | inr (TooDeep msg) => raise (RecursionError msg)
  end.

(** [x[k]] as a computation. *)
Definition getitem (x : json) (k : string) : M E json :=
  match subscript x k with
  | Entry v => ret v
  | MissingKey k' => raise (KeyError k')
  | BadOperand msg => raise (TypeError msg)
  end.

Definition except_FileNotFoundError {A : Type} (h : M E A) (e : exn)
  : option (M E A) :=
  match e with
  | FileNotFoundError _ => Some h
  | _ => None
  end.

Definition except_JSONDecodeError {A : Type} (h : string -> M E A) (e : exn)
  : option (M E A) :=
  match e with
  | JSONDecodeError msg => Some (h msg)
  | _ => None
  end.

Definition except_KeyError {A : Type} (h : string -> M E A) (e : exn)
  : option (M E A) :=
  match e with
  | KeyError k => Some (h (KeyError_str k))
  | _ => None
  end.

Definition get_op_cli_version : M E (Version E) :=
  let cmd := ["op"; "--version"] in
  try_except
    (r <- subprocess_run_text cmd ;; Version_ (stdout r))
    (except_FileNotFoundError
       (raise (OnePasswordCLINotFound
                 "Cannot find `op`, do you have 1password-cli installed?"))).

Definition _run_cmd (cmd : list string) : M E (CompletedProcess bytes) :=
  r <- subprocess_run cmd ;;
  if negb (returncode r =? 0)%Z then
    raise (OnePasswordRuntimeError
             ("Encountered an error when calling subprocess, got: "
                ++ bytes_repr (stderr r))%string)
  else ret r.

Definition list_vaults : M E json :=
  let cmd := ["op"; "vault"; "list"; "--format"; "json"] in
  r <- _run_cmd cmd ;; loads (stdout r).

(** *** class OnePassword *)

Definition alloc (o : OnePassword E) : M E ref :=
  fun w => (Ok (length (objects w)), mkWorld (calls w) (objects w ++ [o])).

(** Reading the attribute [self.vault]. *)
Definition self_vault (self : ref) : M E string :=
  fun w =>
    match nth_error (objects w) self with
    | Some o => (Ok (vault o), w)
    | None => (Raise (AttributeError "vault"), w)
    end.

(** [OnePassword(vault)]; [None] is the call without argument, which
    takes the default ["Private"]. *)
Definition __init__ (vault : option string) : M E ref :=
  let vault := match vault with Some v => v | None => "Private" end in
  v <- get_op_cli_version ;;
  alloc (mkOnePassword v vault).

(** The loop of [get_item] that fills [_fields]. *)
Definition label_fields (fields : list string) : list string :=
  fold_left (fun _fields field => _fields ++ [("label=" ++ field)%string]) fields [].

(** The argument vector [get_item] builds. *)
Definition get_item_cmd (vault item : string) (fields : option (list string))
  : list string :=
  let cmd := ["op"; "item"; "get"; item; "--format"; "json"; "--vault"; vault] in
  if truthy fields then
    match fields with
    | Some fields => cmd ++ ["--fields"; join "," (label_fields fields)]
    | None => cmd
    end
  else cmd.

Definition get_item (self : ref) (item : string) (fields : option (list string))
  : M E json :=
  vault <- self_vault self ;;
  let cmd := get_item_cmd vault item fields in
  r <- _run_cmd cmd ;;
  try_except
    (loads (stdout r))
    (except_JSONDecodeError
       (fun e => raise (OnePasswordJSONError
                          ("Cannot JSON load response from 1Password. Got " ++ e)%string))).

Definition get_value (self : ref) (item field : string) : M E json :=
  try_except
    (x <- get_item self item (Some [field]) ;; getitem x "value")
    (except_KeyError
       (fun e => raise (OnePasswordValueNotFound
                          ("Value not found. Got error: " ++ e)%string))).

Definition get_username (self : ref) (item : string) : M E json :=
  get_value self item "username".

Definition get_password (self : ref) (item : string) : M E json :=
  get_value self item "password".

Definition get_uuid (self : ref) (item : string) : M E json :=
  try_except
    (x <- get_item self item None ;; getitem x "id")
    (except_KeyError
       (fun e => raise (OnePasswordValueNotFound
                          ("Value not found. Got error: " ++ e)%string))).

Definition get_document_cmd (vault item : string) : list string :=
  ["op"; "document"; "get"; item; "--vault"; vault].

Definition get_document (self : ref) (item : string) : M E bytes :=
  vault <- self_vault self ;;
  let cmd := get_document_cmd vault item in
  r <- _run_cmd cmd ;; ret (stdout r).

(** The argument vector [list_items] builds. *)
Definition list_items_cmd (vault : string) (categories tags : option (list string))
  : list string :=
  let cmd := ["op"; "items"; "list"; "--vault"; vault; "--format"; "json"] in
  let cmd :=
    if truthy categories then
      match categories with
      | Some categories => cmd ++ ["--categories"; join "," categories]
      | None => cmd
      end
    else cmd in
  if truthy tags then
    match tags with
    | Some tags => cmd ++ ["--tags"; join "," tags]
    | None => cmd
    end
  else cmd.

Definition list_items (self : ref) (categories tags : option (list string))
  : M E json :=
  vault <- self_vault self ;;
  let cmd := list_items_cmd vault categories tags in
  r <- _run_cmd cmd ;; loads (stdout r).

End Functions.

(** A method call on a client, so that statements can range over every
    operation of the class. *)
Inductive operation : Type :=
| GetItem (item : string) (fields : option (list string))
| GetValue (item field : string)
| GetUsername (item : string)
| GetPassword (item : string)
| GetUuid (item : string)
| GetDocument (item : string)
| ListItems (categories tags : option (list string)).

Inductive answer : Type :=
| Decoded (j : json)
| Raw (d : bytes).

Definition call (E : Env) (self : ref) (op : operation) : M E answer :=
  match op with
  | GetItem item fields => j <- get_item E self item fields ;; ret (Decoded j)
  | GetValue item field => j <- get_value E self item field ;; ret (Decoded j)
  | GetUsername item => j <- get_username E self item ;; ret (Decoded j)
  | GetPassword item => j <- get_password E self item ;; ret (Decoded j)
  | GetUuid item => j <- get_uuid E self item ;; ret (Decoded j)
  | GetDocument item => d <- get_document E self item ;; ret (Raw d)
  | ListItems categories tags =>
      j <- list_items E self categories tags ;; ret (Decoded j)
  end.

(** The argument vector an operation hands to [_run_cmd], for a client
    bound to [vault]. *)
Definition command_of (vault : string) (op : operation) : list string :=
  match op with
  | GetItem item fields => get_item_cmd vault item fields
  | GetValue item field => get_item_cmd vault item (Some [field])
  | GetUsername item => get_item_cmd vault item (Some ["username"])
  | GetPassword item => get_item_cmd vault item (Some ["password"])
  | GetUuid item => get_item_cmd vault item None
  | GetDocument item => get_document_cmd vault item
  | ListItems categories tags => list_items_cmd vault categories tags
  end.

(** ** A scripted environment, for running the model on the cases of the
    unit tests *)

Module Sample.

Definition q (s : string) : string := chr dquote ++ s ++ chr dquote.

Definition nl : string := chr 10.

(** [{"k": "v"}] as the tool prints it. *)
Definition obj1 (k v : string) : string := "{" ++ q k ++ ": " ++ q v ++ "}".

Definition doc_value : string := obj1 "value" "bar".
Definition doc_other : string := obj1 "other_key" "other_value".
Definition doc_id : string := obj1 "id" "some_valid_uuid".
Definition doc_nonexistent : string := "{" ++ q "nonexistent" ++ ": 1}".
Definition doc_list : string := "[" ++ obj1 "id" "item1" ++ "]".
Definition doc_invalid : string := "Invalid JSON".

(** [json.loads] on the documents above; any other input is outside the
    script. *)
Definition loads_table : list (string * (json + loads_failure)) :=
  [ (doc_value, inl (JDict [("value", JStr "bar")]));
    (doc_other, inl (JDict [("other_key", JStr "other_value")]));
    (doc_id, inl (JDict [("id", JStr "some_valid_uuid")]));
    (doc_nonexistent, inl (JDict [("nonexistent", JInt 1)]));
    (doc_list, inl (JList [JDict [("id", JStr "item1")]]));
    (doc_invalid, inr (NotJSON "Expecting value: line 1 column 1 (char 0)")) ].

Fixpoint assoc {A : Type} (k : string) (t : list (string * A)) : option A :=
  match t with
  | [] => None
  | (k', a) :: t' => if String.eqb k k' then Some a else assoc k t'
  end.

Definition decode (data : bytes) : json + loads_failure :=
  match assoc (text_of data) loads_table with
  | Some r => r
  | None => inr (NotJSON "outside the script")
  end.

(** Release numbers of a version. *)
Definition release : Type := list nat.

Definition parse (text : string) : option release :=
  if String.eqb text ("2.23.0" ++ nl)%string then Some [2; 23; 0]%nat else None.

(** A tool that is installed, reports version 2.23.0, and answers every
    other call with [status], [out] and [err]. *)
Definition installed (status : Z) (out err : string) : Env :=
  {| Version := release;
     Version_parse := parse;
     json_loads := decode;
     os_spawn := fun _ _ => inl (Exit status (b out) (b err));
     os_spawn_text := fun _ _ => inl (Exit 0%Z ("2.23.0" ++ nl)%string "") |}.

(** A machine without the tool. *)
Definition missing : Env :=
  {| Version := release;
     Version_parse := parse;
     json_loads := decode;
     os_spawn := fun _ _ =>
       inr (NotFound "[Errno 2] No such file or directory: 'op'");
     os_spawn_text := fun _ _ =>
       inr (NotStarted (NotFound "[Errno 2] No such file or directory: 'op'")) |}.

(** A tool that reports its version on the first call and from then on
    exits with status 1, printing nothing but ["failure"] on its error
    output. *)
Definition failing : Env :=
  {| Version := release;
     Version_parse := parse;
     json_loads := decode;
     os_spawn := fun _ _ => inl (Exit 1%Z (b "") (b "failure"));
     os_spawn_text := fun past _ =>
       match past with
       | [] => inl (Exit 0%Z ("2.23.0" ++ nl)%string "")
       | _ :: _ => inl (Exit 1%Z "" "failure")
       end |}.

(** Nothing called, nothing created. *)
Definition fresh (E : Env) : World E := mkWorld [] [].

(** After [OnePassword("Private")] on a machine with the tool. *)
Definition ready (E : Env) (v : Version E) : World E :=
  mkWorld [Invoke ["op"; "--version"] true] [mkOnePassword v "Private"].

(** The same, for a tool that answers [status], [out] and [err]. *)
Definition world (status : Z) (out err : string) : World (installed status out err) :=
  ready (installed status out err) [2; 23; 0]%nat.

End Sample.

(** ** Notions used in the statements *)

(** Printable ASCII other than the backslash. *)
Definition printable (c : byte) : bool :=
  let n := Byte.to_N c in
  ((32 <=? n) && (n <? 127) && negb (n =? backslash))%N.

(** Error text that a bytes literal shows as it is: printable, and not
    holding both kinds of quote. *)
Definition plain (x : bytes) : bool :=
  forallb printable x && negb (has_byte squote x && has_byte dquote x).

(** The tokens an optional list adds to a command line, in the words of
    the specification: nothing when the list is absent or empty, else
    the flag and the elements joined by commas. *)
Definition optional_flag (flag : string) (l : option (list string))
  : list string :=
  match l with
  | None => []
  | Some [] => []
  | Some (x :: l') => [flag; String.concat "," (x :: l')]
  end.

(** The selector the specification gives for a list of field labels. *)
Definition field_selector (fields : list string) : string :=
  String.concat "," (map (fun f => "label=" ++ f)%string fields).

(** [value] is what follows [--vault] in [cmd]. *)
Definition vault_argument (cmd : list string) (value : string) : Prop :=
  exists pre post, cmd = pre ++ "--vault" :: value :: post.

(** The vault an instance is created with. *)
Definition vault_given (vault : option string) : string :=
  match vault with
  | Some v => v
  | None => "Private"
  end.

(** The text of the [OnePasswordRuntimeError] for error output [err]. *)
Definition runtime_error_text (err : bytes) : string :=
  "Encountered an error when calling subprocess, got: " ++ bytes_repr err.

(** What [_run_cmd] raises or returns, from what the child left. *)
Definition run_outcome (cmd : list string) (x : exit bytes)
  : result (CompletedProcess bytes) :=
  if (exit_status x =? 0)%Z then
    Ok (Completed cmd (exit_status x) (exit_out x) (exit_err x))
  else Raise (OnePasswordRuntimeError (runtime_error_text (exit_err x))).

Section Notions.

Variable E : Env.

(** What becomes of the output of a successful call under the
    [try]/[except] of [get_item]. *)
Definition decoded_or_JSONError (data : bytes) : result json :=
  match json_loads E data with
  | inl j => Ok j
  | inr (NotJSON msg) =>
      Raise (OnePasswordJSONError
               ("Cannot JSON load response from 1Password. Got " ++ msg))
  | inr (NotText msg) => Raise (UnicodeDecodeError msg)
  | inr (TooManyDigits msg) => Raise (ValueError msg)
  | inr (TooDeep msg) => Raise (RecursionError msg)
  end.

(** The same without the [try]/[except], as in [list_items] and
    [list_vaults]. *)
Definition decoded_or_raw (data : bytes) : result json :=
  match json_loads E data with
  | inl j => Ok j
  | inr (NotJSON msg) => Raise (JSONDecodeError msg)
  | inr (NotText msg) => Raise (UnicodeDecodeError msg)
  | inr (TooManyDigits msg) => Raise (ValueError msg)
  | inr (TooDeep msg) => Raise (RecursionError msg)
  end.

(** What becomes of the result [x] of [get_item] under the subscript
    and the [except KeyError] of [get_value] and [get_uuid]. *)
Definition entry_or_ValueNotFound (x : json) (k : string) : result json :=
  match subscript x k with
  | Entry v => Ok v
  | MissingKey k' =>
      Raise (OnePasswordValueNotFound
               ("Value not found. Got error: " ++ KeyError_str k'))
  | BadOperand msg => Raise (TypeError msg)
  end.

(** One use of the package: a probe, a listing of the vaults, the
    creation of a client, or an operation on a client. *)
Inductive step : World E -> World E -> Prop :=
| step_probe (w : World E) : step w (snd (get_op_cli_version E w))
| step_vaults (w : World E) : step w (snd (list_vaults E w))
| step_init (given : option string) (w : World E) :
    step w (snd (__init__ E given w))
| step_call (self : ref) (op : operation) (w : World E) :
    step w (snd (call E self op w)).

(** The worlds a program can be in that starts with nothing called and
    nothing created. *)
Inductive reachable : World E -> Prop :=
| reach_start : reachable (mkWorld [] [])
| reach_step (w w' : World E) : reachable w -> step w w' -> reachable w'.

(** The instance [o] has passed the check of the executable in a run
    with the call log [made]: the log holds a probe that found and
    started the tool, and whose output parsed to the version in [o]. *)
Definition checked (made : list invocation) (o : OnePassword E) : Prop :=
  exists past rest x,
    made = past ++ Invoke ["op"; "--version"] true :: rest
    /\ spawn_text E past ["op"; "--version"] = inl x
    /\ Version_parse E (exit_out x) = Some (op_cli_version o).

End Notions.

(** ** Notions used in the further statements *)

Section Runs.

Variable E : Env.

(** A program that performs the operations [ops] on the client [self],
    one after the other, whatever each of them returns or raises. *)
Fixpoint perform (self : ref) (ops : list operation) (w : World E) : World E :=
  match ops with
  | [] => w
  | op :: ops' => perform self ops' (snd (call E self op w))
  end.

(** Any number of uses of the package, one after the other. *)
Inductive steps : World E -> World E -> Prop :=
| steps_none (w : World E) : steps w w
| steps_more (w1 w2 w3 : World E) : steps w1 w2 -> step E w2 w3 -> steps w1 w3.

End Runs.

(** Every character of [s] satisfies [p]. *)
Fixpoint all_chars (p : ascii -> bool) (s : string) : bool :=
  match s with
  | EmptyString => true
  | String a s' => p a && all_chars p s'
  end.

(** Printable ASCII: the codes 32 to 126. *)
Definition printable_char (a : ascii) : bool :=
  let n := N_of_ascii a in ((32 <=? n) && (n <? 127))%N.

(** *** Reading a bytes literal back *)

(** The value of a hexadecimal digit as [repr] writes it. *)
Definition unhex (a : ascii) : option N :=
  let n := N_of_ascii a in
  if ((48 <=? n) && (n <? 58))%N then Some (n - 48)%N
  else if ((97 <=? n) && (n <? 103))%N then Some (n - 87)%N
  else None.

(** The byte written as a backslash followed by [a], for the escapes of
    one letter. *)
Definition unescape (a : ascii) : option N :=
  let n := N_of_ascii a in
  if (n =? 116)%N then Some 9%N
  else if (n =? 110)%N then Some 10%N
  else if (n =? 114)%N then Some 13%N
  else if ((n =? backslash) || (n =? squote) || (n =? dquote))%N then Some n
  else None.

Definition byte_of_code (n : N) : option byte := Byte.of_N n.

(** The bytes of the body of a literal closed by the quote [q]: what is
    left of the literal after [b] and the opening quote. *)
Fixpoint read_body (q : N) (s : string) : option bytes :=
  match s with
  | EmptyString => None
  | String a s1 =>
      if (N_of_ascii a =? q)%N then
        match s1 with
        | EmptyString => Some []
        | String _ _ => None
        end
      else if (N_of_ascii a =? backslash)%N then
        match s1 with
        | EmptyString => None
        | String e s2 =>
            if (N_of_ascii e =? 120)%N then
              match s2 with
              | String h (String l s3) =>
                  match unhex h, unhex l with
                  | Some hi, Some lo =>
                      match byte_of_code (16 * hi + lo), read_body q s3 with
                      | Some c, Some x => Some (c :: x)
                      | _, _ => None
                      end
                  | _, _ => None
                  end
              | _ => None
              end
            else
              match unescape e with
              | Some n =>
                  match byte_of_code n, read_body q s2 with
                  | Some c, Some x => Some (c :: x)
                  | _, _ => None
                  end
              | None => None
              end
        end
      else
        match byte_of_code (N_of_ascii a), read_body q s1 with
        | Some c, Some x => Some (c :: x)
        | _, _ => None
        end
  end.

(** [s] without the prefix [p], when it has it. *)
Fixpoint strip_prefix (p s : string) : option string :=
  match p, s with
  | EmptyString, _ => Some s
  | String a p', String c s' =>
      if Ascii.eqb a c then strip_prefix p' s' else None
  | String _ _, EmptyString => None
  end.

(** The error output that the message of an [OnePasswordRuntimeError]
    of [_run_cmd] shows. *)
Definition read_error_text (msg : string) : option bytes :=
  match strip_prefix "Encountered an error when calling subprocess, got: b" msg with
  | Some (String a body) =>
      let q := N_of_ascii a in
      if ((q =? squote) || (q =? dquote))%N then read_body q body else None
  | _ => None
  end.

(** *** More scripted environments *)

Module Scenario.

(** A tool that reports its version on the first call and is then
    removed from the machine. *)
Definition removed : Env :=
  {| Version := Sample.release;
     Version_parse := Sample.parse;
     json_loads := Sample.decode;
     os_spawn := fun _ _ =>
       inr (NotFound "[Errno 2] No such file or directory: 'op'");
     os_spawn_text := fun past _ =>
       match past with
       | [] => inl (Exit 0%Z ("2.23.0" ++ Sample.nl)%string "")
       | _ :: _ =>
           inr (NotStarted
                  (NotFound "[Errno 2] No such file or directory: 'op'"))
       end |}.

(** A tool that cannot be started for lack of permission. *)
Definition forbidden : Env :=
  {| Version := Sample.release;
     Version_parse := Sample.parse;
     json_loads := Sample.decode;
     os_spawn := fun _ _ => inr (OtherError "[Errno 13] Permission denied: 'op'");
     os_spawn_text := fun _ _ =>
       inr (NotStarted (OtherError "[Errno 13] Permission denied: 'op'")) |}.

(** A tool that answers the probe with bytes that are no text. *)
Definition garbled : Env :=
  {| Version := Sample.release;
     Version_parse := Sample.parse;
     json_loads := Sample.decode;
     os_spawn := fun _ _ => inl (Exit 0%Z (b "") (b ""));
     os_spawn_text := fun _ _ =>
       inr (NotDecoded
              "'utf-8' codec can't decode byte 0xff in position 0: invalid start byte") |}.

End Scenario.

(** ** Lemmas on the runtime *)

Section Runtime.

Lemma chr_to_N (c : byte) : chr (Byte.to_N c) = String (ascii_of_byte c) "".
Proof. unfold chr. now rewrite ascii_of_byte_via_N. Qed.

Lemma repr_byte_plain (quote : N) (c : byte) :
  printable c = true ->
  (Byte.to_N c =? quote)%N = false ->
  repr_byte quote c = String (ascii_of_byte c) "".
Proof.
  unfold printable, repr_byte; cbv zeta. intros Hp Hq.
  apply andb_true_iff in Hp as [Hp Hb].
  apply andb_true_iff in Hp as [Hlo Hhi].
  apply negb_true_iff in Hb.
  apply N.leb_le in Hlo. apply N.ltb_lt in Hhi.
  rewrite Hq, Hb. cbn [orb].
  destruct (N.eqb_spec (Byte.to_N c) 9); [lia|].
  destruct (N.eqb_spec (Byte.to_N c) 10); [lia|].
  destruct (N.eqb_spec (Byte.to_N c) 13); [lia|].
  replace (Byte.to_N c <? 32)%N with false by (symmetry; apply N.ltb_ge; lia).
  replace (127 <=? Byte.to_N c)%N with false by (symmetry; apply N.leb_gt; lia).
  cbn [orb]. apply chr_to_N.
Qed.

Lemma repr_body_plain (quote : N) (x : bytes) :
  forallb printable x = true ->
  has_byte quote x = false ->
  repr_body quote x = text_of x.
Proof.
  unfold has_byte, text_of. induction x as [|c x IH]; cbn; intros Hp Hq.
  - reflexivity.
  - apply andb_true_iff in Hp as [Hc Hx].
    apply orb_false_iff in Hq as [Hcq Hxq].
    rewrite (repr_byte_plain quote c Hc Hcq), (IH Hx Hxq). reflexivity.
Qed.

Lemma bytes_repr_plain (x : bytes) :
  plain x = true ->
  bytes_repr x
  = ("b" ++ chr (repr_quote x) ++ text_of x ++ chr (repr_quote x))%string.
Proof.
  unfold plain, bytes_repr; cbv zeta. intros H.
  apply andb_true_iff in H as [Hp Hq]. apply negb_true_iff in Hq.
  rewrite repr_body_plain; trivial.
  unfold repr_quote.
  destruct (has_byte squote x) eqn:Hs, (has_byte dquote x) eqn:Hd;
    cbn in *; congruence.
Qed.

Lemma append_empty_r (s : string) : (s ++ "")%string = s.
Proof. induction s as [|a s IH]; cbn; [reflexivity | now rewrite IH]. Qed.

Lemma append_assoc (s t u : string) :
  ((s ++ t) ++ u)%string = (s ++ t ++ u)%string.
Proof. induction s as [|a s IH]; cbn; [reflexivity | now rewrite IH]. Qed.

Lemma prefix_append (s t : string) : String.prefix s (s ++ t) = true.
Proof.
  induction s as [|a s IH]; cbn.
  - now destruct t.
  - destruct (ascii_dec a a); [exact IH | congruence].
Qed.

Lemma str_in_append (s pre post : string) :
  str_in s (pre ++ s ++ post) = true.
Proof.
  induction pre as [|a pre IH]; cbn [append].
  - destruct (s ++ post)%string eqn:Heq; cbn [str_in];
      rewrite <- Heq, prefix_append; reflexivity.
  - cbn [str_in]. rewrite IH. apply orb_true_r.
Qed.

Lemma label_fields_map (fields : list string) :
  label_fields fields = map (fun f => "label=" ++ f)%string fields.
Proof.
  unfold label_fields.
  enough (H : forall acc,
             fold_left (fun _fields field =>
                          _fields ++ [("label=" ++ field)%string]) fields acc
             = acc ++ map (fun f => "label=" ++ f)%string fields)
    by apply (H []).
  induction fields as [|f fields IH]; intros acc; cbn.
  - now rewrite app_nil_r.
  - rewrite IH, <- app_assoc. reflexivity.
Qed.

End Runtime.

(** ** Equations of the functions *)

Section Equations.

Variable E : Env.

(** *** [_run_cmd] *)

Lemma run_cmd_spawned (cmd : list string) (w : World E) (x : exit bytes) :
  spawn E (calls w) cmd = inl x ->
  _run_cmd E cmd w = (run_outcome cmd x, log E (Invoke cmd false) w).
Proof.
  intros H. unfold _run_cmd, bind, subprocess_run, run_outcome.
  rewrite H. cbn. now destruct (exit_status x =? 0)%Z.
Qed.

Lemma run_cmd_not_spawned (cmd : list string) (w : World E) (f : launch_failure) :
  spawn E (calls w) cmd = inr f ->
  _run_cmd E cmd w = (Raise (launch_exn f), log E (Invoke cmd false) w).
Proof.
  intros H. unfold _run_cmd, bind, subprocess_run. now rewrite H.
Qed.

Lemma run_cmd_zero (cmd : list string) (w : World E) (x : exit bytes) :
  spawn E (calls w) cmd = inl x ->
  exit_status x = 0%Z ->
  _run_cmd E cmd w
  = (Ok (Completed cmd 0 (exit_out x) (exit_err x)), log E (Invoke cmd false) w).
Proof.
  intros H H0. rewrite (run_cmd_spawned cmd w x H). unfold run_outcome.
  now rewrite H0.
Qed.

Lemma run_cmd_nonzero (cmd : list string) (w : World E) (y : exit bytes) :
  spawn E (calls w) cmd = inl y ->
  exit_status y <> 0%Z ->
  _run_cmd E cmd w
  = (Raise (OnePasswordRuntimeError (runtime_error_text (exit_err y))),
     log E (Invoke cmd false) w).
Proof.
  intros H H0. rewrite (run_cmd_spawned cmd w y H). unfold run_outcome.
  apply Z.eqb_neq in H0. now rewrite H0.
Qed.

Lemma run_cmd_world (cmd : list string) (w : World E) :
  snd (_run_cmd E cmd w) = log E (Invoke cmd false) w.
Proof.
  destruct (spawn E (calls w) cmd) as [x|f] eqn:H.
  - now rewrite (run_cmd_spawned _ _ _ H).
  - now rewrite (run_cmd_not_spawned _ _ _ H).
Qed.

(** What follows a call of [_run_cmd] leaves the world as the call left
    it, when it is a function [k] of the completed process alone. *)
Lemma after_run_cmd_world {A : Type} (cmd : list string)
      (k : CompletedProcess bytes -> result A) (w : World E) :
  snd (match _run_cmd E cmd w with
       | (Ok r, w') => (k r, w')
       | (Raise e, w') => (Raise e, w')
       end)
  = log E (Invoke cmd false) w.
Proof.
  rewrite <- run_cmd_world. now destruct (_run_cmd E cmd w) as [[r|e] w'].
Qed.

(** *** The functions that decode *)

Lemma loads_raw (data : bytes) (w : World E) :
  loads E data w = (decoded_or_raw E data, w).
Proof.
  unfold loads, decoded_or_raw. now destruct (json_loads E data) as [j|[m|m|m|m]].
Qed.

Lemma list_vaults_run (w : World E) :
  list_vaults E w
  = match _run_cmd E ["op"; "vault"; "list"; "--format"; "json"] w with
    | (Ok r, w') => (decoded_or_raw E (stdout r), w')
    | (Raise e, w') => (Raise e, w')
    end.
Proof.
  unfold list_vaults, bind.
  destruct (_run_cmd E _ w) as [[r|e] w']; [|reflexivity].
  apply loads_raw.
Qed.

Lemma self_vault_found (self : ref) (o : OnePassword E) (w : World E) :
  nth_error (objects w) self = Some o ->
  self_vault E self w = (Ok (vault o), w).
Proof. intros H. unfold self_vault. now rewrite H. Qed.

Lemma get_item_run (self : ref) (o : OnePassword E) item fields (w : World E) :
  nth_error (objects w) self = Some o ->
  get_item E self item fields w
  = match _run_cmd E (get_item_cmd (vault o) item fields) w with
    | (Ok r, w') => (decoded_or_JSONError E (stdout r), w')
    | (Raise e, w') => (Raise e, w')
    end.
Proof.
  intros H. unfold get_item, bind. rewrite (self_vault_found _ _ _ H).
  destruct (_run_cmd E _ w) as [[r|e] w']; [|reflexivity].
  unfold try_except. rewrite loads_raw.
  unfold decoded_or_raw, decoded_or_JSONError.
  now destruct (json_loads E (stdout r)) as [j|[m|m|m|m]].
Qed.

Lemma get_item_unbound (self : ref) item fields (w : World E) :
  nth_error (objects w) self = None ->
  get_item E self item fields w = (Raise (AttributeError "vault"), w).
Proof. intros H. unfold get_item, bind, self_vault. now rewrite H. Qed.

Lemma list_items_run (self : ref) (o : OnePassword E) categories tags
      (w : World E) :
  nth_error (objects w) self = Some o ->
  list_items E self categories tags w
  = match _run_cmd E (list_items_cmd (vault o) categories tags) w with
    | (Ok r, w') => (decoded_or_raw E (stdout r), w')
    | (Raise e, w') => (Raise e, w')
    end.
Proof.
  intros H. unfold list_items, bind. rewrite (self_vault_found _ _ _ H).
  destruct (_run_cmd E _ w) as [[r|e] w']; [|reflexivity].
  apply loads_raw.
Qed.

Lemma get_document_run (self : ref) (o : OnePassword E) item (w : World E) :
  nth_error (objects w) self = Some o ->
  get_document E self item w
  = match _run_cmd E (get_document_cmd (vault o) item) w with
    | (Ok r, w') => (Ok (stdout r), w')
    | (Raise e, w') => (Raise e, w')
    end.
Proof.
  intros H. unfold get_document, bind. rewrite (self_vault_found _ _ _ H).
  now destruct (_run_cmd E _ w) as [[r|e] w'].
Qed.

(** The [try]/[except KeyError] around a subscript of what [m] returns,
    as in [get_value] and [get_uuid]. *)
Lemma subscripted (m : M E json) (k : string) (w : World E) :
  try_except
    (x <- m ;; getitem E x k)
    (except_KeyError E
       (fun e => raise (OnePasswordValueNotFound
                          ("Value not found. Got error: " ++ e)%string))) w
  = match m w with
    | (Ok x, w') => (entry_or_ValueNotFound x k, w')
    | (Raise (KeyError k'), w') =>
        (Raise (OnePasswordValueNotFound
                  ("Value not found. Got error: " ++ KeyError_str k')), w')
    | (Raise e, w') => (Raise e, w')
    end.
Proof.
  unfold try_except, bind, entry_or_ValueNotFound.
  destruct (m w) as [[x|e] w'].
  - unfold getitem. now destruct (subscript x k).
  - now destruct e.
Qed.

(** *** The world after a call *)

Lemma list_vaults_world (w : World E) :
  snd (list_vaults E w)
  = log E (Invoke ["op"; "vault"; "list"; "--format"; "json"] false) w.
Proof. rewrite list_vaults_run. apply after_run_cmd_world. Qed.

Lemma get_item_world (self : ref) (o : OnePassword E) item fields (w : World E) :
  nth_error (objects w) self = Some o ->
  snd (get_item E self item fields w)
  = log E (Invoke (get_item_cmd (vault o) item fields) false) w.
Proof.
  intros H. rewrite (get_item_run _ _ _ _ _ H).
  apply (after_run_cmd_world _ (fun r => decoded_or_JSONError E (stdout r))).
Qed.

Lemma list_items_world (self : ref) (o : OnePassword E) categories tags
      (w : World E) :
  nth_error (objects w) self = Some o ->
  snd (list_items E self categories tags w)
  = log E (Invoke (list_items_cmd (vault o) categories tags) false) w.
Proof.
  intros H. rewrite (list_items_run _ _ _ _ _ H).
  apply (after_run_cmd_world _ (fun r => decoded_or_raw E (stdout r))).
Qed.

Lemma get_document_world (self : ref) (o : OnePassword E) item (w : World E) :
  nth_error (objects w) self = Some o ->
  snd (get_document E self item w)
  = log E (Invoke (get_document_cmd (vault o) item) false) w.
Proof.
  intros H. rewrite (get_document_run _ _ _ _ H).
  apply (after_run_cmd_world _ (fun r => Ok (stdout r))).
Qed.

Lemma subscripted_world (m : M E json) (k : string) (w : World E) :
  snd (try_except
         (x <- m ;; getitem E x k)
         (except_KeyError E
            (fun e => raise (OnePasswordValueNotFound
                               ("Value not found. Got error: " ++ e)%string))) w)
  = snd (m w).
Proof.
  rewrite subscripted. destruct (m w) as [[x|e] w']; [reflexivity|].
  now destruct e.
Qed.

Lemma snd_bind_ret {A B : Type} (m : M E A) (f : A -> B) (w : World E) :
  snd ((x <- m ;; ret (f x)) w) = snd (m w).
Proof. unfold bind, ret. now destruct (m w) as [[a|e] w']. Qed.

(** Every operation on a bound client makes one call of the tool, with
    the command of [command_of], and changes nothing else. *)
Lemma call_world (self : ref) (o : OnePassword E) (op : operation) (w : World E) :
  nth_error (objects w) self = Some o ->
  snd (call E self op w) = log E (Invoke (command_of (vault o) op) false) w.
Proof.
  intros H. destruct op; cbn [call command_of]; rewrite snd_bind_ret;
    unfold get_username, get_password, get_value, get_uuid;
    rewrite ?subscripted_world;
    auto using get_item_world, get_document_world, list_items_world.
Qed.

(** On a reference that is bound to no instance no call is made. *)
Lemma call_unbound (self : ref) (op : operation) (w : World E) :
  nth_error (objects w) self = None ->
  snd (call E self op w) = w.
Proof.
  intros H. destruct op; cbn [call]; rewrite snd_bind_ret;
    unfold get_username, get_password, get_value, get_uuid;
    rewrite ?subscripted_world, ?get_item_unbound; trivial;
    unfold get_document, list_items, bind, self_vault; now rewrite H.
Qed.

(** Every operation of the client stops at a non-zero exit status. *)
Lemma call_nonzero (self : ref) (o : OnePassword E) (op : operation)
      (w : World E) (y : exit bytes) :
  nth_error (objects w) self = Some o ->
  spawn E (calls w) (command_of (vault o) op) = inl y ->
  exit_status y <> 0%Z ->
  fst (call E self op w)
  = Raise (OnePasswordRuntimeError (runtime_error_text (exit_err y))).
Proof.
  intros Ho Hs Hy. pose proof (run_cmd_nonzero _ w y Hs Hy) as Hr.
  destruct op; cbn [call command_of] in *; unfold bind;
    unfold get_username, get_password, get_value, get_uuid;
    rewrite ?subscripted, ?(get_item_run _ _ _ _ _ Ho),
      ?(get_document_run _ _ _ _ Ho), ?(list_items_run _ _ _ _ _ Ho), Hr;
    reflexivity.
Qed.

(** *** The argument vectors *)

Lemma get_item_cmd_fields (vault item : string) (fields : option (list string)) :
  get_item_cmd vault item fields
  = ["op"; "item"; "get"; item; "--format"; "json"; "--vault"; vault]
      ++ match fields with
         | Some (f :: fields') => ["--fields"; field_selector (f :: fields')]
         | _ => []
         end.
Proof.
  unfold get_item_cmd, field_selector, join.
  destruct fields as [[|f fields']|]; cbn [truthy]; trivial.
  now rewrite label_fields_map.
Qed.

Lemma list_items_cmd_flags (vault : string) (categories tags : option (list string)) :
  list_items_cmd vault categories tags
  = ["op"; "items"; "list"; "--vault"; vault; "--format"; "json"]
      ++ optional_flag "--categories" categories
      ++ optional_flag "--tags" tags.
Proof.
  unfold list_items_cmd, optional_flag, join.
  destruct categories as [[|c cs]|], tags as [[|t ts]|]; reflexivity.
Qed.

Lemma command_of_vault (vault : string) (op : operation) :
  vault_argument (command_of vault op) vault.
Proof.
  unfold vault_argument.
  destruct op; cbn [command_of];
    rewrite ?get_item_cmd_fields, ?list_items_cmd_flags;
    unfold get_document_cmd;
    first [ exists ["op"; "item"; "get"; item; "--format"; "json"];
            eexists; cbn [app]; reflexivity
          | exists ["op"; "document"; "get"; item];
            eexists; cbn [app]; reflexivity
          | exists ["op"; "items"; "list"];
            eexists; cbn [app]; reflexivity ].
Qed.

(** *** The version probe and the constructor *)

Lemma probe_spawned (w : World E) (x : exit string) :
  spawn_text E (calls w) ["op"; "--version"] = inl x ->
  get_op_cli_version E w
  = (match Version_parse E (exit_out x) with
     | Some v => Ok v
     | None => Raise (InvalidVersion (exit_out x))
     end,
     log E (Invoke ["op"; "--version"] true) w).
Proof.
  intros H. unfold get_op_cli_version, try_except, bind, subprocess_run_text.
  rewrite H. cbn. unfold Version_.
  now destruct (Version_parse E (exit_out x)).
Qed.

Lemma probe_not_spawned (w : World E) (f : launch_failure) :
  spawn_text E (calls w) ["op"; "--version"] = inr f ->
  get_op_cli_version E w
  = (Raise match f with
           | BinaryNotFound _ =>
               OnePasswordCLINotFound
                 "Cannot find `op`, do you have 1password-cli installed?"
           | _ => launch_exn f
           end,
     log E (Invoke ["op"; "--version"] true) w).
Proof.
  intros H. unfold get_op_cli_version, try_except, bind, subprocess_run_text.
  rewrite H. now destruct f.
Qed.

Lemma probe_world (w : World E) :
  snd (get_op_cli_version E w) = log E (Invoke ["op"; "--version"] true) w.
Proof.
  destruct (spawn_text E (calls w) ["op"; "--version"]) as [x|f] eqn:Hs.
  - now rewrite (probe_spawned w x Hs).
  - now rewrite (probe_not_spawned w f Hs).
Qed.

Lemma init_probe (vault : option string) (w : World E) :
  __init__ E vault w
  = match get_op_cli_version E w with
    | (Ok v, w') =>
        (Ok (length (objects w')),
         mkWorld (calls w') (objects w' ++ [mkOnePassword v (vault_given vault)]))
    | (Raise e, w') => (Raise e, w')
    end.
Proof.
  unfold __init__, bind, alloc, vault_given.
  now destruct (get_op_cli_version E w) as [[v|e] w'].
Qed.

(** A constructor that returns has started the tool and parsed its
    answer; the new instance holds that version and the given vault. *)
Lemma init_returns (given : option string) (w w' : World E) (self : ref) :
  __init__ E given w = (Ok self, w') ->
  exists x v,
    spawn_text E (calls w) ["op"; "--version"] = inl x
    /\ Version_parse E (exit_out x) = Some v
    /\ nth_error (objects w') self = Some (mkOnePassword v (vault_given given)).
Proof.
  intros H. rewrite init_probe in H.
  destruct (spawn_text E (calls w) ["op"; "--version"]) as [x|f] eqn:Hs.
  - rewrite (probe_spawned w x Hs) in H.
    destruct (Version_parse E (exit_out x)) as [v|] eqn:Hv; [|discriminate].
    injection H as <- <-. exists x, v. repeat split; trivial.
    cbn. rewrite nth_error_app2 by lia. now rewrite Nat.sub_diag.
  - rewrite (probe_not_spawned w f Hs) in H. discriminate.
Qed.

(** *** Runs of a program *)

Lemma checked_later (made : list invocation) (i : invocation)
      (o : OnePassword E) :
  checked E made o -> checked E (made ++ [i]) o.
Proof.
  intros (past & rest & x & Hm & Hs & Hv).
  exists past, (rest ++ [i]), x. repeat split; trivial.
  rewrite Hm, <- app_assoc. reflexivity.
Qed.

Lemma step_keeps_checked (w w' : World E) :
  step E w w' ->
  Forall (checked E (calls w)) (objects w) ->
  Forall (checked E (calls w')) (objects w').
Proof.
  intros Hstep Hall.
  assert (Hlog : forall i, Forall (checked E (calls w ++ [i])) (objects w)).
  { intros i. eapply Forall_impl; [|exact Hall].
    intros o. apply checked_later. }
  destruct Hstep as [w|w|given w|self op w].
  - rewrite probe_world. apply Hlog.
  - rewrite list_vaults_world. apply Hlog.
  - rewrite init_probe.
    destruct (spawn_text E (calls w) ["op"; "--version"]) as [x|f] eqn:Hs.
    + rewrite (probe_spawned w x Hs).
      destruct (Version_parse E (exit_out x)) as [v|] eqn:Hv; cbn.
      * apply Forall_app. split; [apply Hlog|].
        constructor; [|constructor].
        exists (calls w), [], x. repeat split; trivial.
      * apply Hlog.
    + rewrite (probe_not_spawned w f Hs). apply Hlog.
  - destruct (nth_error (objects w) self) as [o|] eqn:Ho.
    + rewrite (call_world self o op w Ho). apply Hlog.
    + rewrite (call_unbound self op w Ho). exact Hall.
Qed.

(** Every instance of a reachable world has passed the check. *)
Lemma reachable_checked (w : World E) :
  reachable E w -> Forall (checked E (calls w)) (objects w).
Proof.
  induction 1 as [|w w' _ IH Hstep].
  - constructor.
  - exact (step_keeps_checked w w' Hstep IH).
Qed.

End Equations.

(** ** Bytes literals *)

Section Literals.

Lemma repr_quote_cases (x : bytes) : repr_quote x = squote \/ repr_quote x = dquote.
Proof.
  unfold repr_quote.
  destruct (has_byte squote x && negb (has_byte dquote x)); auto.
Qed.

Lemma all_chars_append (p : ascii -> bool) (s t : string) :
  all_chars p (s ++ t) = all_chars p s && all_chars p t.
Proof.
  induction s as [|a s IH]; cbn; [reflexivity|].
  now rewrite IH, andb_assoc.
Qed.

Lemma repr_byte_printable (q : N) (c : byte) :
  q = squote \/ q = dquote ->
  all_chars printable_char (repr_byte q c) = true.
Proof. intros [-> | ->]; destruct c; reflexivity. Qed.

Lemma repr_body_printable (q : N) (x : bytes) :
  q = squote \/ q = dquote ->
  all_chars printable_char (repr_body q x) = true.
Proof.
  intros Hq. induction x as [|c x IH]; cbn [repr_body]; [reflexivity|].
  now rewrite all_chars_append, (repr_byte_printable q c Hq), IH.
Qed.

Lemma runtime_error_text_printable (err : bytes) :
  all_chars printable_char (runtime_error_text err) = true.
Proof.
  unfold runtime_error_text, bytes_repr; cbv zeta.
  pose proof (repr_quote_cases err) as Hq.
  rewrite !all_chars_append, (repr_body_printable _ err Hq).
  destruct Hq as [-> | ->]; reflexivity.
Qed.

Lemma read_body_repr_byte (q : N) (c : byte) (rest : string) :
  q = squote \/ q = dquote ->
  read_body q (repr_byte q c ++ rest)
  = match read_body q rest with
    | Some x => Some (c :: x)
    | None => None
    end.
Proof. intros [-> | ->]; destruct c; reflexivity. Qed.

Lemma read_body_repr_body (q : N) (x : bytes) :
  q = squote \/ q = dquote ->
  read_body q (repr_body q x ++ chr q) = Some x.
Proof.
  intros Hq. induction x as [|c x IH]; cbn [repr_body].
  - destruct Hq as [-> | ->]; reflexivity.
  - now rewrite append_assoc, (read_body_repr_byte q c _ Hq), IH.
Qed.

Lemma strip_prefix_append (p s : string) : strip_prefix p (p ++ s) = Some s.
Proof.
  induction p as [|a p IH]; cbn.
  - now destruct s.
  - now rewrite Ascii.eqb_refl.
Qed.

(** The error output can be read back from the message. *)
Lemma read_runtime_error_text (err : bytes) :
  read_error_text (runtime_error_text err) = Some err.
Proof.
  unfold read_error_text.
  replace (runtime_error_text err)
    with ("Encountered an error when calling subprocess, got: b"
            ++ chr (repr_quote err)
            ++ repr_body (repr_quote err) err ++ chr (repr_quote err))%string.
  - rewrite strip_prefix_append.
    pose proof (repr_quote_cases err) as Hq.
    pose proof (read_body_repr_body _ err Hq) as Hb.
    destruct Hq as [Hq | Hq]; rewrite Hq in *; exact Hb.
  - unfold runtime_error_text, bytes_repr. cbv zeta.
    now rewrite <- (append_assoc _ "b").
Qed.

End Literals.

(** ** The process invoker *)

(** C3: for every argument vector, when the child exits with status
    zero [_run_cmd] returns the completed process, whose [stdout] is
    the captured output; when it exits with another status, [_run_cmd]
    raises [OnePasswordRuntimeError], and the message includes the
    captured error output: it is the fixed prefix followed by the
    bytes literal of that output, from which the output can be read
    back in full, and in which it stands as it is whenever it is
    [plain]. *)
Theorem run_cmd_result (E : Env) (cmd : list string) (w : World E)
        (x : exit bytes) :
  spawn E (calls w) cmd = inl x ->
  (exit_status x = 0%Z ->
   _run_cmd E cmd w
   = (Ok (Completed cmd 0 (exit_out x) (exit_err x)), log E (Invoke cmd false) w)
   /\ (forall r, fst (_run_cmd E cmd w) = Ok r -> stdout r = exit_out x))
  /\
  (exit_status x <> 0%Z ->
   _run_cmd E cmd w
   = (Raise (OnePasswordRuntimeError (runtime_error_text (exit_err x))),
      log E (Invoke cmd false) w)
   /\ str_in (bytes_repr (exit_err x)) (runtime_error_text (exit_err x)) = true
   /\ read_error_text (runtime_error_text (exit_err x)) = Some (exit_err x)
   /\ (plain (exit_err x) = true ->
       str_in (text_of (exit_err x)) (runtime_error_text (exit_err x)) = true)).
Proof.
  intros H. split.
  - intros H0. rewrite (run_cmd_zero E cmd w x H H0). split; [reflexivity|].
    cbn. intros r Hr. now injection Hr as <-.
  - intros H0. split; [exact (run_cmd_nonzero E cmd w x H H0)|].
    split; [|split].
    + unfold runtime_error_text.
      rewrite <- (append_empty_r (bytes_repr (exit_err x))) at 2.
      apply str_in_append.
    + apply read_runtime_error_text.
    + intros Hp. unfold runtime_error_text. rewrite (bytes_repr_plain _ Hp).
      rewrite <- (append_assoc "b"), <- append_assoc.
      apply str_in_append.
Qed.

(** The two cases of [test_run_cmd] and [test_run_cmd_error]: a child
    that prints a version and exits with zero, and one that fails with
    ["I have failed"] on its error output. *)
Lemma run_cmd_result_witness :
  (let E := Sample.installed 0 ("2.23.0" ++ Sample.nl) "" in
   _run_cmd E ["op"; "--version"] (Sample.fresh E)
   = (Ok (Completed ["op"; "--version"] 0 (b ("2.23.0" ++ Sample.nl)) (b "")),
      log E (Invoke ["op"; "--version"] false) (Sample.fresh E)))
  /\
  (let E := Sample.installed 1 "" "I have failed" in
   _run_cmd E ["nonexistent"; "please"; "fail"] (Sample.fresh E)
   = (Raise (OnePasswordRuntimeError
               "Encountered an error when calling subprocess, got: b'I have failed'"),
      log E (Invoke ["nonexistent"; "please"; "fail"] false) (Sample.fresh E))
   /\ read_error_text
        "Encountered an error when calling subprocess, got: b'I have failed'"
      = Some (b "I have failed")
   /\ str_in "I have failed"
        "Encountered an error when calling subprocess, got: b'I have failed'"
      = true).
Proof.
  split; cbv zeta.
  - exact (proj1 (proj1 (run_cmd_result
                           (Sample.installed 0 ("2.23.0" ++ Sample.nl) "")
                           ["op"; "--version"] (Sample.fresh _)
                           (Exit 0%Z (b ("2.23.0" ++ Sample.nl)) (b "")) eq_refl)
                        eq_refl)).
  - destruct (proj2 (run_cmd_result
                       (Sample.installed 1 "" "I have failed")
                       ["nonexistent"; "please"; "fail"] (Sample.fresh _)
                       (Exit 1%Z (b "") (b "I have failed")) eq_refl))
      as (Hr & _ & Hb & Hp); [discriminate|].
    split; [exact Hr|]. split; [exact Hb | exact (Hp eq_refl)].
Defined.

(** Error output that ends a line: the message shows the line end as a
    backslash and the letter n, as a bytes literal does. *)
Lemma run_cmd_message_escapes_error_text :
  let err := ("[ERROR] You are not currently signed in." ++ Sample.nl)%string in
  let E := Sample.installed 1 "" err in
  let cmd := ["op"; "vault"; "list"; "--format"; "json"] in
  spawn E (calls (Sample.fresh E)) cmd = inl (Exit 1%Z (b "") (b err))
  /\ _run_cmd E cmd (Sample.fresh E)
     = (Raise (OnePasswordRuntimeError
                 ("Encountered an error when calling subprocess, got: "
                    ++ "b'[ERROR] You are not currently signed in.\n'")),
        log E (Invoke cmd false) (Sample.fresh E))
  /\ str_in (text_of (b err))
       ("Encountered an error when calling subprocess, got: "
          ++ "b'[ERROR] You are not currently signed in.\n'") = false.
Proof. cbv zeta. split; [|split]; vm_compute; reflexivity. Qed.

(** ** The version probe and the constructor *)

(** C4: when the binary of the tool cannot be located, the probe raises
    [OnePasswordCLINotFound] with the hint to install it, and so does
    the constructor, which creates no instance; a constructor that
    returns has had the tool started, has parsed what it printed, and
    has stored that version in the new instance; and so, in every
    world a program can reach, each instance has passed the check of
    the executable. *)
Theorem missing_tool_is_CLINotFound (E : Env) :
  (forall (w : World E) (msg : string),
      spawn_text E (calls w) ["op"; "--version"] = inr (BinaryNotFound msg) ->
      get_op_cli_version E w
      = (Raise (OnePasswordCLINotFound
                  "Cannot find `op`, do you have 1password-cli installed?"),
         log E (Invoke ["op"; "--version"] true) w)
      /\ forall vault,
          __init__ E vault w
          = (Raise (OnePasswordCLINotFound
                      "Cannot find `op`, do you have 1password-cli installed?"),
             log E (Invoke ["op"; "--version"] true) w))
  /\
  (forall (vault : option string) (w w' : World E) (self : ref),
      __init__ E vault w = (Ok self, w') ->
      exists x v,
        spawn_text E (calls w) ["op"; "--version"] = inl x
        /\ Version_parse E (exit_out x) = Some v
        /\ nth_error (objects w') self = Some (mkOnePassword v (vault_given vault)))
  /\
  (forall (w : World E) (self : ref) (o : OnePassword E),
      reachable E w ->
      nth_error (objects w) self = Some o ->
      checked E (calls w) o).
Proof.
  split; [|split].
  - intros w msg H. pose proof (probe_not_spawned E w _ H) as Hp. split.
    + exact Hp.
    + intros vault. rewrite init_probe, Hp. reflexivity.
  - intros vault w w' self. apply init_returns.
  - intros w self o Hr Ho.
    exact (proj1 (Forall_forall _ _) (reachable_checked E w Hr) o
             (nth_error_In _ _ Ho)).
Qed.

(** A machine without the tool, and one with it ([test_get_op_cli_version]
    and the constructor of the other tests). *)
Lemma missing_tool_is_CLINotFound_witness :
  (get_op_cli_version Sample.missing (Sample.fresh _)
   = (Raise (OnePasswordCLINotFound
               "Cannot find `op`, do you have 1password-cli installed?"),
      log _ (Invoke ["op"; "--version"] true) (Sample.fresh _))
   /\ forall vault,
       __init__ Sample.missing vault (Sample.fresh _)
       = (Raise (OnePasswordCLINotFound
                   "Cannot find `op`, do you have 1password-cli installed?"),
          log _ (Invoke ["op"; "--version"] true) (Sample.fresh _)))
  /\
  (let E := Sample.installed 0 "" "" in
   exists x v,
     spawn_text E [] ["op"; "--version"] = inl x
     /\ Version_parse E (exit_out x) = Some v
     /\ nth_error (objects (Sample.world 0 "" "")) 0
        = Some (mkOnePassword v "Private"))
  /\
  (let E := Sample.installed 0 "" "" in
   checked E [Invoke ["op"; "--version"] true]
     (mkOnePassword ([2; 23; 0]%nat : Version E) "Private")).
Proof.
  split; [|split].
  - exact (proj1 (missing_tool_is_CLINotFound Sample.missing)
                 (Sample.fresh _)
                 "[Errno 2] No such file or directory: 'op'" eq_refl).
  - exact (proj1 (proj2 (missing_tool_is_CLINotFound (Sample.installed 0 "" "")))
                 (Some "Private") (Sample.fresh _) (Sample.world 0 "" "")
                 0%nat eq_refl).
  - exact (proj2 (proj2 (missing_tool_is_CLINotFound (Sample.installed 0 "" "")))
                 (Sample.world 0 "" "") 0%nat _
                 (reach_step _ _ _ (reach_start _)
                    (step_init _ (Some "Private") _))
                 eq_refl).
Defined.

(** C10: when the tool is started, whatever status it exits with, the
    probe hands the captured text to the version parser and returns or
    raises what the parser does, never [OnePasswordRuntimeError]; while
    [list_vaults] and every operation of a client raise
    [OnePasswordRuntimeError] when the tool exits with a status that is
    not zero. *)
Theorem probe_ignores_exit_status (E : Env) (w : World E) (x : exit string) :
  spawn_text E (calls w) ["op"; "--version"] = inl x ->
  get_op_cli_version E w
  = (match Version_parse E (exit_out x) with
     | Some v => Ok v
     | None => Raise (InvalidVersion (exit_out x))
     end,
     log E (Invoke ["op"; "--version"] true) w)
  /\ (forall msg,
         fst (get_op_cli_version E w) <> Raise (OnePasswordRuntimeError msg))
  /\ (forall y,
         spawn E (calls w) ["op"; "vault"; "list"; "--format"; "json"] = inl y ->
         exit_status y <> 0%Z ->
         fst (list_vaults E w)
         = Raise (OnePasswordRuntimeError (runtime_error_text (exit_err y))))
  /\ (forall self o op y,
         nth_error (objects w) self = Some o ->
         spawn E (calls w) (command_of (vault o) op) = inl y ->
         exit_status y <> 0%Z ->
         fst (call E self op w)
         = Raise (OnePasswordRuntimeError (runtime_error_text (exit_err y)))).
Proof.
  intros H. rewrite (probe_spawned E w x H). split; [reflexivity|]. split.
  - intros msg. cbn. now destruct (Version_parse E (exit_out x)).
  - split.
    + intros y Hs Hy.
      now rewrite list_vaults_run, (run_cmd_nonzero E _ w y Hs Hy).
    + intros self o op y. apply call_nonzero.
Qed.

(** A tool that has begun to fail: the probe raises the error of the
    parser on the empty text, [list_vaults] and [get_password] raise
    [OnePasswordRuntimeError]. *)
Lemma probe_ignores_exit_status_witness :
  let E := Sample.failing in
  let w := Sample.ready E [2; 23; 0]%nat in
  __init__ E (Some "Private") (Sample.fresh E) = (Ok 0%nat, w)
  /\ spawn_text E (calls w) ["op"; "--version"] = inl (Exit 1%Z "" "failure")
  /\ get_op_cli_version E w
     = (Raise (InvalidVersion ""), log E (Invoke ["op"; "--version"] true) w)
  /\ (forall msg,
         fst (get_op_cli_version E w) <> Raise (OnePasswordRuntimeError msg))
  /\ fst (list_vaults E w)
     = Raise (OnePasswordRuntimeError
                "Encountered an error when calling subprocess, got: b'failure'")
  /\ fst (call E 0 (GetPassword "foo") w)
     = Raise (OnePasswordRuntimeError
                "Encountered an error when calling subprocess, got: b'failure'").
Proof.
  cbv zeta. split; [reflexivity|]. split; [reflexivity|].
  pose proof (probe_ignores_exit_status Sample.failing
                (Sample.ready Sample.failing [2; 23; 0]%nat)
                (Exit 1%Z "" "failure") eq_refl) as (Hp & Hn & Hv & Hc).
  split; [exact Hp|]. split; [exact Hn|]. split.
  - refine (Hv (Exit 1%Z (b "") (b "failure")) eq_refl _). discriminate.
  - refine (Hc 0%nat _ (GetPassword "foo") (Exit 1%Z (b "") (b "failure"))
              eq_refl eq_refl _). discriminate.
Defined.

(** ** The client *)

(** C1 on the code: with a zero exit status and output that
    [json.loads] rejects as not being JSON, [list_vaults] and
    [list_items] raise the [JSONDecodeError] of the decoder as it is,
    while [get_item] raises [OnePasswordJSONError]. *)
Theorem raw_decode_error_escapes (E : Env) (w : World E) (x : exit bytes)
        (msg : string) :
  exit_status x = 0%Z ->
  json_loads E (exit_out x) = inr (NotJSON msg) ->
  (spawn E (calls w) ["op"; "vault"; "list"; "--format"; "json"] = inl x ->
   list_vaults E w
   = (Raise (JSONDecodeError msg),
      log E (Invoke ["op"; "vault"; "list"; "--format"; "json"] false) w))
  /\
  (forall self o categories tags,
      nth_error (objects w) self = Some o ->
      spawn E (calls w) (list_items_cmd (vault o) categories tags) = inl x ->
      list_items E self categories tags w
      = (Raise (JSONDecodeError msg),
         log E (Invoke (list_items_cmd (vault o) categories tags) false) w))
  /\
  (forall self o item fields,
      nth_error (objects w) self = Some o ->
      spawn E (calls w) (get_item_cmd (vault o) item fields) = inl x ->
      get_item E self item fields w
      = (Raise (OnePasswordJSONError
                  ("Cannot JSON load response from 1Password. Got " ++ msg)),
         log E (Invoke (get_item_cmd (vault o) item fields) false) w)).
Proof.
  intros H0 Hj. split; [|split].
  - intros Hs. rewrite list_vaults_run, (run_cmd_zero E _ w x Hs H0). cbn.
    unfold decoded_or_raw. now rewrite Hj.
  - intros self o categories tags Ho Hs.
    rewrite (list_items_run E _ _ _ _ _ Ho), (run_cmd_zero E _ w x Hs H0). cbn.
    unfold decoded_or_raw. now rewrite Hj.
  - intros self o item fields Ho Hs.
    rewrite (get_item_run E _ _ _ _ _ Ho), (run_cmd_zero E _ w x Hs H0). cbn.
    unfold decoded_or_JSONError. now rewrite Hj.
Qed.

(** [test_get_item_json_error], and the same output given to
    [list_vaults] and [list_items]. *)
Lemma raw_decode_error_escapes_witness :
  let E := Sample.installed 0 Sample.doc_invalid "" in
  let w := Sample.world 0 Sample.doc_invalid "" in
  list_vaults E w
  = (Raise (JSONDecodeError "Expecting value: line 1 column 1 (char 0)"),
     log E (Invoke ["op"; "vault"; "list"; "--format"; "json"] false) w)
  /\ list_items E 0 None None w
     = (Raise (JSONDecodeError "Expecting value: line 1 column 1 (char 0)"),
        log E (Invoke ["op"; "items"; "list"; "--vault"; "Private";
                       "--format"; "json"] false) w)
  /\ get_item E 0 "Foo" None w
     = (Raise (OnePasswordJSONError
                 ("Cannot JSON load response from 1Password. Got "
                    ++ "Expecting value: line 1 column 1 (char 0)")),
        log E (Invoke ["op"; "item"; "get"; "Foo"; "--format"; "json";
                       "--vault"; "Private"] false) w).
Proof.
  cbv zeta.
  pose proof (raw_decode_error_escapes _
                (Sample.world 0 Sample.doc_invalid "")
                (Exit 0%Z (b Sample.doc_invalid) (b ""))
                "Expecting value: line 1 column 1 (char 0)"
                eq_refl eq_refl) as (Hv & Hl & Hg).
  split; [exact (Hv eq_refl)|].
  split.
  - exact (Hl 0%nat _ None None eq_refl eq_refl).
  - exact (Hg 0%nat _ "Foo" None eq_refl eq_refl).
Defined.

(** C2, as the code has it: an instance holds the vault name it was
    created with, whatever that text is (["Private"] when none is
    given), and every operation hands that name, as it is, to the tool
    as the value of [--vault]. *)
Theorem vault_passed_verbatim (E : Env) :
  (forall (given : option string) (w w' : World E) (self : ref),
      __init__ E given w = (Ok self, w') ->
      exists o, nth_error (objects w') self = Some o
                /\ vault o = vault_given given)
  /\
  (forall (self : ref) (o : OnePassword E) (op : operation) (w : World E),
      nth_error (objects w) self = Some o ->
      exists cmd,
        calls (snd (call E self op w)) = calls w ++ [Invoke cmd false]
        /\ vault_argument cmd (vault o)).
Proof.
  split.
  - intros given w w' self H.
    destruct (init_returns E given w w' self H) as (x & v & _ & _ & Ho).
    eexists. split; [exact Ho | reflexivity].
  - intros self o op w Ho. exists (command_of (vault o) op).
    rewrite (call_world E self o op w Ho). split; [reflexivity|].
    apply command_of_vault.
Qed.

(** [OnePassword("Private")], then [get_document("foo")]
    ([test_get_document_success]). *)
Lemma vault_passed_verbatim_witness :
  let E := Sample.installed 0 "Test document" "" in
  let w := Sample.world 0 "Test document" "" in
  (exists o, nth_error (objects w) 0 = Some o /\ vault o = "Private")
  /\ exists cmd,
      calls (snd (call E 0 (GetDocument "foo") w))
      = calls w ++ [Invoke cmd false]
      /\ vault_argument cmd "Private".
Proof.
  cbv zeta. split.
  - exact (proj1 (vault_passed_verbatim _)
                 (Some "Private") (Sample.fresh _)
                 (Sample.world 0 "Test document" "") 0%nat eq_refl).
  - exact (proj2 (vault_passed_verbatim _)
                 0%nat _ (GetDocument "foo")
                 (Sample.world 0 "Test document" "") eq_refl).
Defined.

(** C2 as stated fails: the constructor takes the empty text as a vault
    name, and the instance then holds a vault name that is empty. *)
Lemma empty_vault_is_accepted :
  let E := Sample.installed 0 "" "" in
  __init__ E (Some "") (Sample.fresh E)
  = (Ok 0%nat,
     mkWorld [Invoke ["op"; "--version"] true]
       [mkOnePassword ([2; 23; 0]%nat : Version E) ""])
  /\ exists o,
      nth_error (objects (snd (__init__ E (Some "") (Sample.fresh E)))) 0
      = Some o
      /\ vault o = "".
Proof.
  cbv zeta. split; [reflexivity|]. eexists. split; reflexivity.
Qed.

(** C5: on a client bound to vault [V], [get_item(I)] without field
    list makes one call of the tool, with the argument vector
    [op item get I --format json --vault V]; with a field list
    [f1, ..., fn] that is not empty the vector has two more tokens,
    [--fields] and [label=f1,...,label=fn], the labels in the order
    given. *)
Theorem get_item_argument_vector (E : Env) (self : ref) (o : OnePassword E)
        (item : string) (w : World E) :
  nth_error (objects w) self = Some o ->
  calls (snd (get_item E self item None w))
  = calls w
      ++ [Invoke ["op"; "item"; "get"; item; "--format"; "json";
                  "--vault"; vault o] false]
  /\
  forall f fields,
    calls (snd (get_item E self item (Some (f :: fields)) w))
    = calls w
        ++ [Invoke (["op"; "item"; "get"; item; "--format"; "json";
                     "--vault"; vault o]
                      ++ ["--fields";
                          String.concat ","
                            (map (fun l => "label=" ++ l)%string (f :: fields))])
                   false].
Proof.
  intros Ho. split; [|intros f fields];
    rewrite (get_item_world E _ _ _ _ _ Ho), get_item_cmd_fields; reflexivity.
Qed.

(** [test_get_item_success_without_fields] and
    [test_get_item_success_with_fields], the latter with two fields. *)
Lemma get_item_argument_vector_witness :
  let E := Sample.installed 0 Sample.doc_id "" in
  let w := Sample.world 0 Sample.doc_id "" in
  nth_error (objects w) 0
  = Some (mkOnePassword ([2; 23; 0]%nat : Version E) "Private")
  /\ calls (snd (get_item E 0 "Foo" None w))
     = [Invoke ["op"; "--version"] true;
        Invoke ["op"; "item"; "get"; "Foo"; "--format"; "json";
                "--vault"; "Private"] false]
  /\ calls (snd (get_item E 0 "Foo" (Some ["username"; "password"]) w))
     = [Invoke ["op"; "--version"] true;
        Invoke ["op"; "item"; "get"; "Foo"; "--format"; "json";
                "--vault"; "Private";
                "--fields"; "label=username,label=password"] false].
Proof.
  cbv zeta. split; [reflexivity|].
  pose proof (get_item_argument_vector _ 0%nat _ "Foo"
                (Sample.world 0 Sample.doc_id "") eq_refl) as [Hn Hf].
  split; [exact Hn | exact (Hf "username" ["password"])].
Defined.

(** C6: on a client bound to vault [V], [list_items] makes one call of
    the tool, with [op items list --vault V --format json], then
    [--categories] and the categories joined by commas when that list
    is given and not empty, then [--tags] and the tags joined by commas
    when that list is given and not empty; an absent or empty list adds
    no token. *)
Theorem list_items_argument_vector (E : Env) (self : ref) (o : OnePassword E)
        (categories tags : option (list string)) (w : World E) :
  nth_error (objects w) self = Some o ->
  calls (snd (list_items E self categories tags w))
  = calls w
      ++ [Invoke (["op"; "items"; "list"; "--vault"; vault o; "--format"; "json"]
                    ++ optional_flag "--categories" categories
                    ++ optional_flag "--tags" tags)
                 false].
Proof.
  intros Ho.
  rewrite (list_items_world E _ _ _ _ _ Ho), list_items_cmd_flags. reflexivity.
Qed.

(** [test_list_items_no_filters] and [test_list_items_with_filters]. *)
Lemma list_items_argument_vector_witness :
  let E := Sample.installed 0 Sample.doc_list "" in
  let w := Sample.world 0 Sample.doc_list "" in
  nth_error (objects w) 0
  = Some (mkOnePassword ([2; 23; 0]%nat : Version E) "Private")
  /\ calls (snd (list_items E 0 (Some []) (Some []) w))
     = [Invoke ["op"; "--version"] true;
        Invoke ["op"; "items"; "list"; "--vault"; "Private";
                "--format"; "json"] false]
  /\ calls (snd (list_items E 0 (Some ["Login"; "Password"])
                   (Some ["some_tag"; "another_tag"]) w))
     = [Invoke ["op"; "--version"] true;
        Invoke ["op"; "items"; "list"; "--vault"; "Private";
                "--format"; "json"; "--categories"; "Login,Password";
                "--tags"; "some_tag,another_tag"] false].
Proof.
  cbv zeta. split; [reflexivity|]. split.
  - exact (list_items_argument_vector _ 0%nat _ (Some []) (Some [])
             (Sample.world 0 Sample.doc_list "") eq_refl).
  - exact (list_items_argument_vector _ 0%nat _
             (Some ["Login"; "Password"]) (Some ["some_tag"; "another_tag"])
             (Sample.world 0 Sample.doc_list "") eq_refl).
Defined.

(** C7: [get_value(item, field)] is [get_item(item, fields=[field])]
    followed by the subscript ["value"]: it makes the call of the tool
    that [get_item] makes with that one field and no other; when
    [get_item] returns an object, [get_value] returns its ["value"]
    entry, and raises [OnePasswordValueNotFound] when the object has
    none.  [get_uuid(item)] is the same on [get_item(item)], without
    fields, and the key ["id"]. *)
Theorem value_or_ValueNotFound (E : Env) (self : ref) (item field : string)
        (pairs : list (string * json)) (w w' : World E) :
  (snd (get_value E self item field w) = snd (get_item E self item (Some [field]) w)
   /\ snd (get_uuid E self item w) = snd (get_item E self item None w))
  /\
  (get_item E self item (Some [field]) w = (Ok (JDict pairs), w') ->
   get_value E self item field w
   = (match dict_get "value" pairs with
      | Some v => Ok v
      | None =>
          Raise (OnePasswordValueNotFound "Value not found. Got error: 'value'")
      end, w'))
  /\
  (get_item E self item None w = (Ok (JDict pairs), w') ->
   get_uuid E self item w
   = (match dict_get "id" pairs with
      | Some v => Ok v
      | None =>
          Raise (OnePasswordValueNotFound "Value not found. Got error: 'id'")
      end, w')).
Proof.
  split; [split; apply subscripted_world|].
  split; intros H; unfold get_value, get_uuid; rewrite subscripted, H;
    unfold entry_or_ValueNotFound; cbn [subscript].
  - now destruct (dict_get "value" pairs).
  - now destruct (dict_get "id" pairs).
Qed.

(** [test_get_value_success], [test_get_value_key_error],
    [test_get_uuid_success] and [test_get_uuid_key_error]. *)
Lemma value_or_ValueNotFound_witness :
  (let E := Sample.installed 0 Sample.doc_value "" in
   fst (get_value E 0 "foo" "value" (Sample.world 0 Sample.doc_value ""))
   = Ok (JStr "bar"))
  /\
  (let E := Sample.installed 0 Sample.doc_other "" in
   fst (get_value E 0 "foo" "bar" (Sample.world 0 Sample.doc_other ""))
   = Raise (OnePasswordValueNotFound "Value not found. Got error: 'value'"))
  /\
  (let E := Sample.installed 0 Sample.doc_id "" in
   fst (get_uuid E 0 "foo" (Sample.world 0 Sample.doc_id ""))
   = Ok (JStr "some_valid_uuid"))
  /\
  (let E := Sample.installed 0 Sample.doc_nonexistent "" in
   fst (get_uuid E 0 "Foo" (Sample.world 0 Sample.doc_nonexistent ""))
   = Raise (OnePasswordValueNotFound "Value not found. Got error: 'id'")).
Proof.
  cbv zeta. split; [|split; [|split]].
  - exact (f_equal fst
             (proj1 (proj2 (value_or_ValueNotFound _ 0%nat "foo" "value"
                              [("value", JStr "bar")]
                              (Sample.world 0 Sample.doc_value "") _))
                    eq_refl)).
  - exact (f_equal fst
             (proj1 (proj2 (value_or_ValueNotFound _ 0%nat "foo" "bar"
                              [("other_key", JStr "other_value")]
                              (Sample.world 0 Sample.doc_other "") _))
                    eq_refl)).
  - exact (f_equal fst
             (proj2 (proj2 (value_or_ValueNotFound _ 0%nat "foo" ""
                              [("id", JStr "some_valid_uuid")]
                              (Sample.world 0 Sample.doc_id "") _))
                    eq_refl)).
  - exact (f_equal fst
             (proj2 (proj2 (value_or_ValueNotFound _ 0%nat "Foo" ""
                              [("nonexistent", JInt 1)]
                              (Sample.world 0 Sample.doc_nonexistent "") _))
                    eq_refl)).
Defined.

(** C8: no operation of the client changes an instance: after
    [get_item], [get_value], [get_username], [get_password],
    [get_uuid], [get_document] or [list_items], returned or raised, the
    store of instances is what it was before the call. *)
Theorem operations_keep_instances (E : Env) (self : ref) (op : operation)
        (w : World E) :
  objects (snd (call E self op w)) = objects w.
Proof.
  destruct (nth_error (objects w) self) as [o|] eqn:Ho.
  - now rewrite (call_world E self o op w Ho).
  - now rewrite (call_unbound E self op w Ho).
Qed.

(** C9: when [get_item] returns a list, the subscript by a text key in
    [get_value] and [get_uuid] raises [TypeError], which no [except]
    clause catches and which is none of the errors of the package. *)
Theorem list_result_raises_TypeError (E : Env) (self : ref)
        (item field : string) (items : list json) (w w' : World E) :
  (get_item E self item (Some [field]) w = (Ok (JList items), w') ->
   get_value E self item field w
   = (Raise (TypeError "list indices must be integers or slices, not str"), w'))
  /\
  (get_item E self item None w = (Ok (JList items), w') ->
   get_uuid E self item w
   = (Raise (TypeError "list indices must be integers or slices, not str"), w'))
  /\
  is_OnePasswordException
    (TypeError "list indices must be integers or slices, not str") = false.
Proof.
  split; [|split]; [intros H | intros H | reflexivity];
    unfold get_value, get_uuid; now rewrite subscripted, H.
Qed.

(** The tool answers with a list of one object. *)
Lemma list_result_raises_TypeError_witness :
  let E := Sample.installed 0 Sample.doc_list "" in
  let w := Sample.world 0 Sample.doc_list "" in
  fst (get_item E 0 "foo" None w) = Ok (JList [JDict [("id", JStr "item1")]])
  /\ fst (get_value E 0 "foo" "username" w)
     = Raise (TypeError "list indices must be integers or slices, not str")
  /\ fst (get_uuid E 0 "foo" w)
     = Raise (TypeError "list indices must be integers or slices, not str").
Proof.
  cbv zeta. split; [reflexivity|].
  pose proof (list_result_raises_TypeError _ 0%nat "foo" "username"
                [JDict [("id", JStr "item1")]]
                (Sample.world 0 Sample.doc_list "")) as H.
  split.
  - exact (f_equal fst (proj1 (H _) eq_refl)).
  - exact (f_equal fst (proj1 (proj2 (H _)) eq_refl)).
Defined.


(** ** Further properties of the process invoker *)

Section MoreEquations.

Variable E : Env.

(** [_run_cmd] raises [OnePasswordRuntimeError] only for a child that
    ran and exited with a status other than zero. *)
Lemma run_cmd_raises_runtime (cmd : list string) (w : World E) (msg : string) :
  fst (_run_cmd E cmd w) = Raise (OnePasswordRuntimeError msg) ->
  exists x, spawn E (calls w) cmd = inl x
            /\ exit_status x <> 0%Z
            /\ msg = runtime_error_text (exit_err x).
Proof.
  destruct (spawn E (calls w) cmd) as [x|f] eqn:Hs.
  - rewrite (run_cmd_spawned E cmd w x Hs). unfold run_outcome. cbn.
    destruct (Z.eqb_spec (exit_status x) 0) as [H0|H0]; [discriminate|].
    intros H. injection H as <-. now exists x.
  - rewrite (run_cmd_not_spawned E cmd w f Hs). now destruct f.
Qed.

(** Arguments with a NUL character start no child. *)
Lemma spawn_nul (past : list invocation) (cmd : list string) :
  has_nul cmd = true ->
  spawn E past cmd = inr (BadArgument "embedded null byte").
Proof. intros H. unfold spawn. now rewrite H. Qed.

(** The probe, whose arguments are fixed, is never refused for its
    arguments. *)
Lemma probe_not_refused (past : list invocation) (f : launch_failure) :
  spawn_text E past ["op"; "--version"] = inr f ->
  match f with
  | BinaryNotFound _ | LaunchError _ | OutputNotText _ => True
  | BadArgument _ => False
  end.
Proof.
  unfold spawn_text. cbn [has_nul existsb holds_nul N_of_ascii].
  change (has_nul ["op"; "--version"]) with false. cbv iota.
  destruct (os_spawn_text E past ["op"; "--version"]) as [x|[g|msg]];
    intros H; inversion H; trivial.
  now destruct g.
Qed.

(** The exceptions of [get_item]. *)
Lemma get_item_raises (self : ref) item fields (w w' : World E) (e : exn) :
  get_item E self item fields w = (Raise e, w') ->
  match e with
  | OnePasswordRuntimeError _ | OnePasswordJSONError _ | FileNotFoundError _
  | OSError _ | UnicodeDecodeError _ | AttributeError _ | ValueError _
  | RecursionError _ => True
  | _ => False
  end.
Proof.
  destruct (nth_error (objects w) self) as [o|] eqn:Ho.
  - rewrite (get_item_run E _ _ _ _ _ Ho).
    destruct (spawn E (calls w) (get_item_cmd (vault o) item fields))
      as [x|f] eqn:Hs.
    + rewrite (run_cmd_spawned E _ w x Hs). unfold run_outcome.
      destruct (exit_status x =? 0)%Z; cbn.
      * unfold decoded_or_JSONError.
        destruct (json_loads E (exit_out x)) as [j|[m|m|m|m]]; intros H;
          now inversion H.
      * intros H. now inversion H.
    + rewrite (run_cmd_not_spawned E _ w f Hs). intros H. inversion H.
      now destruct f.
  - rewrite (get_item_unbound E _ _ _ _ Ho). intros H. now inversion H.
Qed.

(** An exception of [_run_cmd] other than [KeyError] is the exception
    of the operation that made the call. *)
Lemma call_run_raises (self : ref) (o : OnePassword E) (op : operation)
      (w w' : World E) (e : exn) :
  nth_error (objects w) self = Some o ->
  _run_cmd E (command_of (vault o) op) w = (Raise e, w') ->
  (forall k, e <> KeyError k) ->
  call E self op w = (Raise e, w').
Proof.
  intros Ho Hr Hk.
  destruct op; cbn [call command_of] in *; unfold bind;
    unfold get_username, get_password, get_value, get_uuid;
    rewrite ?subscripted, ?(get_item_run E _ _ _ _ _ Ho),
      ?(get_document_run E _ _ _ _ Ho), ?(list_items_run E _ _ _ _ _ Ho), Hr;
    trivial;
    destruct e; trivial; now elim (Hk key).
Qed.

Lemma step_keeps_bound (w w' : World E) (r : ref) (o : OnePassword E) :
  step E w w' ->
  nth_error (objects w) r = Some o ->
  nth_error (objects w') r = Some o.
Proof.
  intros Hstep Ho.
  destruct Hstep as [w|w|given w|self op w].
  - now rewrite probe_world.
  - now rewrite list_vaults_world.
  - rewrite init_probe, (surjective_pairing (get_op_cli_version E w)),
      probe_world.
    destruct (fst (get_op_cli_version E w)) as [v|e]; cbn; trivial.
    rewrite nth_error_app1; trivial.
    apply nth_error_Some. congruence.
  - destruct (nth_error (objects w) self) as [o'|] eqn:Ho'.
    + now rewrite (call_world E self o' op w Ho').
    + now rewrite (call_unbound E self op w Ho').
Qed.

Lemma steps_keep_bound (w w' : World E) (r : ref) (o : OnePassword E) :
  steps E w w' ->
  nth_error (objects w) r = Some o ->
  nth_error (objects w') r = Some o.
Proof.
  induction 1 as [|w1 w2 w3 _ IH Hstep]; intros Ho; trivial.
  exact (step_keeps_bound w2 w3 r o Hstep (IH Ho)).
Qed.

End MoreEquations.

(** X1: whatever bytes the tool writes on its error output, the message
    of the [OnePasswordRuntimeError] that [_run_cmd] raises is made of
    printable ASCII characters only. *)
Theorem runtime_error_message_is_printable (E : Env) (cmd : list string)
        (w : World E) (msg : string) :
  fst (_run_cmd E cmd w) = Raise (OnePasswordRuntimeError msg) ->
  all_chars printable_char msg = true.
Proof.
  intros H. destruct (run_cmd_raises_runtime E cmd w msg H) as (x & _ & _ & ->).
  apply runtime_error_text_printable.
Qed.

(** Error output with a line end, a tab, both quotes and a byte that is
    not ASCII. *)
Lemma runtime_error_message_is_printable_witness :
  let err := ("can't find " ++ chr dquote ++ "Caf" ++ chr 233 ++ chr dquote
                ++ chr 9 ++ Sample.nl)%string in
  let E := Sample.installed 1 "" err in
  fst (_run_cmd E ["op"; "item"; "get"; "x"] (Sample.fresh E))
  = Raise (OnePasswordRuntimeError
             ("Encountered an error when calling subprocess, got: "
                ++ "b'can\'t find " ++ chr dquote ++ "Caf\xe9" ++ chr dquote
                ++ "\t\n'"))
  /\ all_chars printable_char
       ("Encountered an error when calling subprocess, got: "
          ++ "b'can\'t find " ++ chr dquote ++ "Caf\xe9" ++ chr dquote
          ++ "\t\n'") = true.
Proof.
  cbv zeta. split; [reflexivity|].
  exact (runtime_error_message_is_printable
           (Sample.installed 1 ""
              ("can't find " ++ chr dquote ++ "Caf" ++ chr 233 ++ chr dquote
                 ++ chr 9 ++ Sample.nl))
           ["op"; "item"; "get"; "x"] (Sample.fresh _) _ eq_refl).
Defined.

(** X2: the message of the [OnePasswordRuntimeError] of [_run_cmd]
    loses nothing of the error output of the tool: [read_error_text]
    reads the captured bytes back from it, so two runs that fail with
    the same message had the same error output. *)
Theorem runtime_error_message_reads_back (E : Env) (cmd : list string)
        (w : World E) (x : exit bytes) :
  spawn E (calls w) cmd = inl x ->
  exit_status x <> 0%Z ->
  exists msg,
    fst (_run_cmd E cmd w) = Raise (OnePasswordRuntimeError msg)
    /\ read_error_text msg = Some (exit_err x)
    /\ forall err, runtime_error_text err = msg -> err = exit_err x.
Proof.
  intros Hs H0. exists (runtime_error_text (exit_err x)).
  rewrite (run_cmd_nonzero E cmd w x Hs H0). split; [reflexivity|].
  split; [apply read_runtime_error_text|].
  intros err Heq.
  pose proof (read_runtime_error_text err) as Hr. rewrite Heq in Hr.
  rewrite read_runtime_error_text in Hr. congruence.
Qed.

(** The error output of the witness of X1, read back. *)
Lemma runtime_error_message_reads_back_witness :
  let err := ("can't find " ++ chr dquote ++ "Caf" ++ chr 233 ++ chr dquote
                ++ chr 9 ++ Sample.nl)%string in
  let E := Sample.installed 1 "" err in
  exists msg,
    fst (_run_cmd E ["op"; "item"; "get"; "x"] (Sample.fresh E))
    = Raise (OnePasswordRuntimeError msg)
    /\ read_error_text msg = Some (b err)
    /\ forall err', runtime_error_text err' = msg -> err' = b err.
Proof.
  cbv zeta.
  refine (runtime_error_message_reads_back
            (Sample.installed 1 ""
               ("can't find " ++ chr dquote ++ "Caf" ++ chr 233 ++ chr dquote
                  ++ chr 9 ++ Sample.nl))
            ["op"; "item"; "get"; "x"] (Sample.fresh _)
            (Exit 1%Z (b "") _) eq_refl _).
  discriminate.
Defined.

(** ** Further properties of the client *)

(** X3: [get_document] makes one call, [op document get I --vault V],
    and when the tool exits with zero it returns the captured bytes as
    they are, decoding nothing.  When the tool exits with another
    status it raises [OnePasswordRuntimeError]; when [subprocess.run]
    itself raises, its exception comes out as it is, as the
    [ValueError] for an item or a vault that holds a NUL character,
    for which no child is started.  [OnePasswordRuntimeError] is the
    one error of the package that [get_document] raises. *)
Theorem get_document_returns_raw_bytes (E : Env) (self : ref)
        (o : OnePassword E) (item : string) (w : World E) :
  nth_error (objects w) self = Some o ->
  snd (get_document E self item w)
  = log E (Invoke ["op"; "document"; "get"; item; "--vault"; vault o] false) w
  /\
  (forall x,
      spawn E (calls w) ["op"; "document"; "get"; item; "--vault"; vault o]
      = inl x ->
      (exit_status x = 0%Z ->
       fst (get_document E self item w) = Ok (exit_out x))
      /\
      (exit_status x <> 0%Z ->
       fst (get_document E self item w)
       = Raise (OnePasswordRuntimeError (runtime_error_text (exit_err x)))))
  /\
  (forall f,
      spawn E (calls w) ["op"; "document"; "get"; item; "--vault"; vault o]
      = inr f ->
      fst (get_document E self item w) = Raise (launch_exn f))
  /\
  (has_nul [item; vault o] = true ->
   fst (get_document E self item w) = Raise (ValueError "embedded null byte"))
  /\
  (forall e,
      fst (get_document E self item w) = Raise e ->
      is_OnePasswordException e = true ->
      exists x,
        spawn E (calls w) ["op"; "document"; "get"; item; "--vault"; vault o]
        = inl x
        /\ exit_status x <> 0%Z
        /\ e = OnePasswordRuntimeError (runtime_error_text (exit_err x))).
Proof.
  intros Ho. split; [exact (get_document_world E self o item w Ho)|].
  rewrite (get_document_run E self o item w Ho). unfold get_document_cmd.
  split; [|split; [|split]].
  - intros x Hs. split; intros H0.
    + now rewrite (run_cmd_zero E _ w x Hs H0).
    + now rewrite (run_cmd_nonzero E _ w x Hs H0).
  - intros f Hs. now rewrite (run_cmd_not_spawned E _ w f Hs).
  - intros Hn.
    assert (Hc : has_nul ["op"; "document"; "get"; item; "--vault"; vault o]
                 = true).
    { cbn [has_nul existsb] in *. cbn [holds_nul N_of_ascii].
      apply orb_true_iff in Hn as [Hn|Hn].
      - rewrite Hn. now rewrite !orb_true_r.
      - rewrite orb_false_r in Hn. rewrite Hn. now rewrite !orb_true_r. }
    now rewrite (run_cmd_not_spawned E _ w _ (spawn_nul E (calls w) _ Hc)).
  - intros e.
    destruct (spawn E (calls w) _) as [x|f] eqn:Hs.
    + rewrite (run_cmd_spawned E _ w x Hs). unfold run_outcome.
      destruct (Z.eqb_spec (exit_status x) 0) as [H0|H0]; cbn; [discriminate|].
      intros H _. injection H as <-. now exists x.
    + rewrite (run_cmd_not_spawned E _ w f Hs). cbn.
      intros H. injection H as <-. now destruct f.
Qed.

(** [test_get_document_success]: the document is not JSON and comes
    back as it is; and an item with a NUL character in its name. *)
Lemma get_document_returns_raw_bytes_witness :
  let E := Sample.installed 0 "Test document" "" in
  let w := Sample.world 0 "Test document" "" in
  json_loads E (b "Test document") = inr (NotJSON "outside the script")
  /\ get_document E 0 "foo" w
     = (Ok (b "Test document"),
        log E (Invoke ["op"; "document"; "get"; "foo"; "--vault"; "Private"]
                 false) w)
  /\ fst (get_document E 0 ("foo" ++ chr 0 ++ "bar") w)
     = Raise (ValueError "embedded null byte").
Proof.
  cbv zeta. split; [reflexivity|].
  pose proof (get_document_returns_raw_bytes _ 0%nat _ "foo"
                (Sample.world 0 "Test document" "") eq_refl) as (Hw & Hr & _).
  split.
  - rewrite (surjective_pairing (get_document _ _ _ _)), Hw.
    now rewrite (proj1 (Hr (Exit 0%Z (b "Test document") (b "")) eq_refl)
                   eq_refl).
  - exact (proj1 (proj2 (proj2 (proj2
             (get_document_returns_raw_bytes _ 0%nat _ ("foo" ++ chr 0 ++ "bar")
                (Sample.world 0 "Test document" "") eq_refl)))) eq_refl).
Defined.

(** X4: when the tool exits with zero and [json.loads] accepts its
    output, [list_vaults], [list_items] and [get_item] return the
    decoded document as it is, an object or a list alike. *)
Theorem decoded_document_is_returned (E : Env) (w : World E) (x : exit bytes)
        (j : json) :
  exit_status x = 0%Z ->
  json_loads E (exit_out x) = inl j ->
  (spawn E (calls w) ["op"; "vault"; "list"; "--format"; "json"] = inl x ->
   list_vaults E w
   = (Ok j, log E (Invoke ["op"; "vault"; "list"; "--format"; "json"] false) w))
  /\
  (forall self o categories tags,
      nth_error (objects w) self = Some o ->
      spawn E (calls w) (list_items_cmd (vault o) categories tags) = inl x ->
      list_items E self categories tags w
      = (Ok j, log E (Invoke (list_items_cmd (vault o) categories tags) false) w))
  /\
  (forall self o item fields,
      nth_error (objects w) self = Some o ->
      spawn E (calls w) (get_item_cmd (vault o) item fields) = inl x ->
      get_item E self item fields w
      = (Ok j, log E (Invoke (get_item_cmd (vault o) item fields) false) w)).
Proof.
  intros H0 Hj. split; [|split].
  - intros Hs. rewrite list_vaults_run, (run_cmd_zero E _ w x Hs H0). cbn.
    unfold decoded_or_raw. now rewrite Hj.
  - intros self o categories tags Ho Hs.
    rewrite (list_items_run E _ _ _ _ _ Ho), (run_cmd_zero E _ w x Hs H0). cbn.
    unfold decoded_or_raw. now rewrite Hj.
  - intros self o item fields Ho Hs.
    rewrite (get_item_run E _ _ _ _ _ Ho), (run_cmd_zero E _ w x Hs H0). cbn.
    unfold decoded_or_JSONError. now rewrite Hj.
Qed.

(** [test_list_vaults_success], [test_list_items_no_filters] and
    [test_get_item_success_without_fields], on a list of one object. *)
Lemma decoded_document_is_returned_witness :
  let E := Sample.installed 0 Sample.doc_list "" in
  let w := Sample.world 0 Sample.doc_list "" in
  fst (list_vaults E w) = Ok (JList [JDict [("id", JStr "item1")]])
  /\ fst (list_items E 0 (Some []) (Some []) w)
     = Ok (JList [JDict [("id", JStr "item1")]])
  /\ fst (get_item E 0 "Foo" None w) = Ok (JList [JDict [("id", JStr "item1")]]).
Proof.
  cbv zeta.
  pose proof (decoded_document_is_returned _
                (Sample.world 0 Sample.doc_list "")
                (Exit 0%Z (b Sample.doc_list) (b ""))
                (JList [JDict [("id", JStr "item1")]])
                eq_refl eq_refl) as (Hv & Hl & Hg).
  split; [exact (f_equal fst (Hv eq_refl))|]. split.
  - exact (f_equal fst (Hl 0%nat _ (Some []) (Some []) eq_refl eq_refl)).
  - exact (f_equal fst (Hg 0%nat _ "Foo" None eq_refl eq_refl)).
Defined.

(** X5: outside the version probe a tool that cannot be started is not
    turned into an error of the package: [list_vaults] and every
    operation of a client raise the [FileNotFoundError], or other
    operating-system error, of [subprocess.run] as it is. *)
Theorem launch_errors_are_not_converted (E : Env) (w : World E)
        (f : launch_failure) :
  (spawn E (calls w) ["op"; "vault"; "list"; "--format"; "json"] = inr f ->
   list_vaults E w
   = (Raise (launch_exn f),
      log E (Invoke ["op"; "vault"; "list"; "--format"; "json"] false) w))
  /\
  (forall self o op,
      nth_error (objects w) self = Some o ->
      spawn E (calls w) (command_of (vault o) op) = inr f ->
      call E self op w
      = (Raise (launch_exn f),
         log E (Invoke (command_of (vault o) op) false) w))
  /\ is_OnePasswordException (launch_exn f) = false
  /\ (forall msg, f = BinaryNotFound msg -> launch_exn f = FileNotFoundError msg).
Proof.
  split; [|split; [|split]].
  - intros Hs. now rewrite list_vaults_run, (run_cmd_not_spawned E _ w f Hs).
  - intros self o op Ho Hs.
    apply (call_run_raises E self o op w _ _ Ho (run_cmd_not_spawned E _ w f Hs)).
    now destruct f.
  - now destruct f.
  - now intros msg ->.
Qed.

(** A client made while the tool was installed, used after the tool was
    removed. *)
Lemma launch_errors_are_not_converted_witness :
  let E := Scenario.removed in
  let w := Sample.ready E [2; 23; 0]%nat in
  __init__ E None (Sample.fresh E) = (Ok 0%nat, w)
  /\ fst (list_vaults E w)
     = Raise (FileNotFoundError "[Errno 2] No such file or directory: 'op'")
  /\ fst (call E 0 (GetUsername "foo") w)
     = Raise (FileNotFoundError "[Errno 2] No such file or directory: 'op'").
Proof.
  cbv zeta. split; [reflexivity|].
  pose proof (launch_errors_are_not_converted Scenario.removed
                (Sample.ready Scenario.removed [2; 23; 0]%nat)
                (BinaryNotFound "[Errno 2] No such file or directory: 'op'"))
    as (Hv & Hc & _).
  split.
  - exact (f_equal fst (Hv eq_refl)).
  - exact (f_equal fst (Hc 0%nat _ (GetUsername "foo") eq_refl eq_refl)).
Defined.

(** ** Further properties of the constructor *)

(** X6: a constructor that raises has made the one call of the probe
    and created no instance, and it raises for one of four reasons:
    the tool is not found ([OnePasswordCLINotFound]), it cannot be
    started for another reason (the operating-system error, as it is),
    what it printed is not text (the [UnicodeDecodeError] of
    [subprocess.run], as it is), or what it printed is not a version
    ([InvalidVersion], as it is). *)
Theorem failed_construction_creates_nothing (E : Env) (given : option string)
        (w w' : World E) (e : exn) :
  __init__ E given w = (Raise e, w') ->
  w' = log E (Invoke ["op"; "--version"] true) w
  /\ objects w' = objects w
  /\ ((exists msg,
          spawn_text E (calls w) ["op"; "--version"] = inr (BinaryNotFound msg)
          /\ e = OnePasswordCLINotFound
                   "Cannot find `op`, do you have 1password-cli installed?")
      \/ (exists msg,
             spawn_text E (calls w) ["op"; "--version"] = inr (LaunchError msg)
             /\ e = OSError msg)
      \/ (exists msg,
             spawn_text E (calls w) ["op"; "--version"] = inr (OutputNotText msg)
             /\ e = UnicodeDecodeError msg)
      \/ (exists x,
             spawn_text E (calls w) ["op"; "--version"] = inl x
             /\ Version_parse E (exit_out x) = None
             /\ e = InvalidVersion (exit_out x))).
Proof.
  rewrite init_probe.
  destruct (spawn_text E (calls w) ["op"; "--version"]) as [x|f] eqn:Hs.
  - rewrite (probe_spawned E w x Hs).
    destruct (Version_parse E (exit_out x)) as [v|] eqn:Hv; [discriminate|].
    intros H. injection H as <- <-. repeat split.
    right. right. right. now exists x.
  - rewrite (probe_not_spawned E w f Hs).
    pose proof (probe_not_refused E (calls w) f Hs) as Hf.
    intros H. injection H as <- <-. repeat split.
    destruct f as [msg|msg|msg|msg]; [left | right; left | contradiction
                                     | right; right; left];
      now exists msg.
Qed.

(** A tool that may not be executed, a tool that prints no version,
    and a tool that prints bytes that are no text. *)
Lemma failed_construction_creates_nothing_witness :
  __init__ Scenario.forbidden (Some "Private") (Sample.fresh _)
  = (Raise (OSError "[Errno 13] Permission denied: 'op'"),
     mkWorld [Invoke ["op"; "--version"] true] [])
  /\
  (let w := Sample.ready Sample.failing [2; 23; 0]%nat in
   exists w',
     __init__ Sample.failing (Some "Other") w = (Raise (InvalidVersion ""), w')
     /\ objects w' = objects w)
  /\
  (exists w',
      __init__ Scenario.garbled None (Sample.fresh _)
      = (Raise (UnicodeDecodeError
                  "'utf-8' codec can't decode byte 0xff in position 0: invalid start byte"),
         w')
      /\ objects w' = []).
Proof.
  split; [|split].
  - reflexivity.
  - cbv zeta. eexists. split; [reflexivity|].
    exact (proj1 (proj2 (failed_construction_creates_nothing Sample.failing
                           (Some "Other")
                           (Sample.ready Sample.failing [2; 23; 0]%nat)
                           _ _ eq_refl))).
  - eexists. split; [reflexivity|].
    exact (proj1 (proj2 (failed_construction_creates_nothing Scenario.garbled
                           None (Sample.fresh _) _ _ eq_refl))).
Defined.

(** X7: a constructor that returns has made the one call of the probe
    and added one instance at the end of the store; the reference it
    returns was bound to nothing before, and every instance that
    existed is still what it was. *)
Theorem construction_adds_one_instance (E : Env) (given : option string)
        (w w' : World E) (self : ref) :
  __init__ E given w = (Ok self, w') ->
  calls w' = calls w ++ [Invoke ["op"; "--version"] true]
  /\ nth_error (objects w) self = None
  /\ (exists o, objects w' = objects w ++ [o]
                /\ nth_error (objects w') self = Some o
                /\ vault o = vault_given given)
  /\ (forall r o, nth_error (objects w) r = Some o ->
                  nth_error (objects w') r = Some o).
Proof.
  rewrite init_probe, (surjective_pairing (get_op_cli_version E w)), probe_world.
  destruct (fst (get_op_cli_version E w)) as [v|e]; [|discriminate].
  cbn. intros H. injection H as <- <-. cbn. split; [reflexivity|]. split.
  - apply nth_error_None. lia.
  - split.
    + eexists. split; [reflexivity|]. split; [|reflexivity].
      rewrite nth_error_app2 by lia. now rewrite Nat.sub_diag.
    + intros r o Ho. rewrite nth_error_app1; trivial.
      apply nth_error_Some. congruence.
Qed.

(** A second client, for another vault, beside the first. *)
Lemma construction_adds_one_instance_witness :
  let E := Sample.installed 0 "" "" in
  let w := Sample.world 0 "" "" in
  exists w',
    __init__ E (Some "Work") w = (Ok 1%nat, w')
    /\ option_map vault (nth_error (objects w') 0) = Some "Private"
    /\ option_map vault (nth_error (objects w') 1) = Some "Work".
Proof.
  cbv zeta. eexists. split; [reflexivity|].
  pose proof (construction_adds_one_instance (Sample.installed 0 "" "")
                (Some "Work") (Sample.world 0 "" "") _ 1%nat eq_refl)
    as (_ & _ & (o & _ & Ho & Hv) & Hold).
  split.
  - now rewrite (Hold 0%nat _ eq_refl).
  - rewrite Ho. cbn. now rewrite Hv.
Defined.

(** ** Further properties of the getters *)

(** X8: [get_username] and [get_password] ask the tool for the one
    field [label=username], respectively [label=password], of the item,
    and return the ["value"] entry of the object the tool answers with,
    or raise [OnePasswordValueNotFound] when it has none. *)
Theorem username_and_password_selectors (E : Env) (self : ref)
        (o : OnePassword E) (item : string) (w : World E) :
  nth_error (objects w) self = Some o ->
  (snd (get_username E self item w)
   = log E (Invoke ["op"; "item"; "get"; item; "--format"; "json";
                    "--vault"; vault o; "--fields"; "label=username"] false) w
   /\ snd (get_password E self item w)
      = log E (Invoke ["op"; "item"; "get"; item; "--format"; "json";
                       "--vault"; vault o; "--fields"; "label=password"] false) w)
  /\
  (forall x pairs,
      exit_status x = 0%Z ->
      json_loads E (exit_out x) = inl (JDict pairs) ->
      (spawn E (calls w)
         ["op"; "item"; "get"; item; "--format"; "json";
          "--vault"; vault o; "--fields"; "label=username"] = inl x ->
       fst (get_username E self item w)
       = match dict_get "value" pairs with
         | Some v => Ok v
         | None =>
             Raise (OnePasswordValueNotFound "Value not found. Got error: 'value'")
         end)
      /\
      (spawn E (calls w)
         ["op"; "item"; "get"; item; "--format"; "json";
          "--vault"; vault o; "--fields"; "label=password"] = inl x ->
       fst (get_password E self item w)
       = match dict_get "value" pairs with
         | Some v => Ok v
         | None =>
             Raise (OnePasswordValueNotFound "Value not found. Got error: 'value'")
         end)).
Proof.
  intros Ho. unfold get_username, get_password, get_value. split.
  - rewrite !subscripted_world. split; exact (get_item_world E _ _ _ _ _ Ho).
  - intros x pairs H0 Hj.
    rewrite !subscripted, !(get_item_run E _ _ _ _ _ Ho).
    split; intros Hs;
      change (get_item_cmd (vault o) item (Some ["username"]))
        with ["op"; "item"; "get"; item; "--format"; "json";
              "--vault"; vault o; "--fields"; "label=username"];
      change (get_item_cmd (vault o) item (Some ["password"]))
        with ["op"; "item"; "get"; item; "--format"; "json";
              "--vault"; vault o; "--fields"; "label=password"];
      rewrite (run_cmd_zero E _ w x Hs H0); cbn;
      unfold decoded_or_JSONError; rewrite Hj;
      unfold entry_or_ValueNotFound; cbn [subscript fst];
      now destruct (dict_get "value" pairs).
Qed.

(** [test_get_username_success] and [test_get_password_success], down
    to the call of the tool. *)
Lemma username_and_password_selectors_witness :
  let E := Sample.installed 0 Sample.doc_value "" in
  let w := Sample.world 0 Sample.doc_value "" in
  calls (snd (get_password E 0 "foo" w))
  = [Invoke ["op"; "--version"] true;
     Invoke ["op"; "item"; "get"; "foo"; "--format"; "json";
             "--vault"; "Private"; "--fields"; "label=password"] false]
  /\ fst (get_username E 0 "foo" w) = Ok (JStr "bar").
Proof.
  cbv zeta.
  pose proof (username_and_password_selectors _ 0%nat _ "foo"
                (Sample.world 0 Sample.doc_value "") eq_refl)
    as ((_ & Hp) & Hr).
  split.
  - exact (f_equal calls Hp).
  - exact (proj1 (Hr (Exit 0%Z (b Sample.doc_value) (b ""))
                    [("value", JStr "bar")] eq_refl eq_refl) eq_refl).
Defined.

(** X9: [get_value] and [get_uuid] catch nothing but a missing key:
    whatever [get_item] raises, be it [OnePasswordRuntimeError],
    [OnePasswordJSONError] or the error of a tool that could not be
    started, they raise as it is. *)
Theorem get_item_errors_pass_through (E : Env) (self : ref)
        (item field : string) (e : exn) (w w' : World E) :
  (get_item E self item (Some [field]) w = (Raise e, w') ->
   get_value E self item field w = (Raise e, w'))
  /\
  (get_item E self item None w = (Raise e, w') ->
   get_uuid E self item w = (Raise e, w')).
Proof.
  split; intros H; pose proof (get_item_raises E _ _ _ _ _ _ H) as He;
    unfold get_value, get_uuid; rewrite subscripted, H;
    now destruct e.
Qed.

(** A tool that has begun to fail. *)
Lemma get_item_errors_pass_through_witness :
  let E := Sample.failing in
  let w := Sample.ready E [2; 23; 0]%nat in
  fst (get_value E 0 "foo" "username" w)
  = Raise (OnePasswordRuntimeError
             "Encountered an error when calling subprocess, got: b'failure'")
  /\ fst (get_uuid E 0 "foo" w)
     = Raise (OnePasswordRuntimeError
                "Encountered an error when calling subprocess, got: b'failure'").
Proof.
  cbv zeta.
  pose proof (get_item_errors_pass_through Sample.failing 0%nat "foo" "username"
                (OnePasswordRuntimeError
                   "Encountered an error when calling subprocess, got: b'failure'")
                (Sample.ready Sample.failing [2; 23; 0]%nat)) as H.
  split.
  - exact (f_equal fst (proj1 (H _) eq_refl)).
  - exact (f_equal fst (proj2 (H _) eq_refl)).
Defined.

(** X10: [get_value] raises [OnePasswordValueNotFound] exactly when
    [get_item] returned an object without the key ["value"], and
    [get_uuid] exactly when it returned an object without the key
    ["id"]: never for a result that is not an object, and never for a
    failure of [get_item]. *)
Theorem ValueNotFound_iff_missing_key (E : Env) (self : ref)
        (item field msg : string) (w w' : World E) :
  (get_value E self item field w = (Raise (OnePasswordValueNotFound msg), w')
   <-> exists pairs,
        get_item E self item (Some [field]) w = (Ok (JDict pairs), w')
        /\ dict_get "value" pairs = None
        /\ msg = "Value not found. Got error: 'value'")
  /\
  (get_uuid E self item w = (Raise (OnePasswordValueNotFound msg), w')
   <-> exists pairs,
        get_item E self item None w = (Ok (JDict pairs), w')
        /\ dict_get "id" pairs = None
        /\ msg = "Value not found. Got error: 'id'").
Proof.
  split; unfold get_value, get_uuid; rewrite subscripted; split.
  - destruct (get_item E self item (Some [field]) w) as [[x|e] w1] eqn:Hg.
    + unfold entry_or_ValueNotFound. destruct x; cbn [subscript]; try discriminate.
      destruct (dict_get "value" pairs) eqn:Hd; [discriminate|].
      intros H. injection H as <- <-. now exists pairs.
    + pose proof (get_item_raises E _ _ _ _ _ _ Hg) as He.
      now destruct e.
  - intros (pairs & -> & Hd & ->).
    unfold entry_or_ValueNotFound. cbn [subscript]. now rewrite Hd.
  - destruct (get_item E self item None w) as [[x|e] w1] eqn:Hg.
    + unfold entry_or_ValueNotFound. destruct x; cbn [subscript]; try discriminate.
      destruct (dict_get "id" pairs) eqn:Hd; [discriminate|].
      intros H. injection H as <- <-. now exists pairs.
    + pose proof (get_item_raises E _ _ _ _ _ _ Hg) as He.
      now destruct e.
  - intros (pairs & -> & Hd & ->).
    unfold entry_or_ValueNotFound. cbn [subscript]. now rewrite Hd.
Qed.

(** [test_get_uuid_key_error], from the error back to the object. *)
Lemma ValueNotFound_iff_missing_key_witness :
  let E := Sample.installed 0 Sample.doc_nonexistent "" in
  let w := Sample.world 0 Sample.doc_nonexistent "" in
  exists pairs,
    fst (get_item E 0 "Foo" None w) = Ok (JDict pairs)
    /\ dict_get "id" pairs = None.
Proof.
  cbv zeta.
  destruct (proj1 (proj2 (ValueNotFound_iff_missing_key _ 0%nat "Foo" ""
                            "Value not found. Got error: 'id'"
                            (Sample.world 0 Sample.doc_nonexistent "") _))
                  eq_refl) as (pairs & Hg & Hd & _).
  exists pairs. split; [exact (f_equal fst Hg) | exact Hd].
Defined.

Section Surface.

Variable E : Env.

Lemma fst_bind_ret {A B : Type} (m : M E A) (f : A -> B) (w : World E) (e : exn) :
  fst ((x <- m ;; ret (f x)) w) = Raise e -> fst (m w) = Raise e.
Proof.
  unfold bind, ret.
  destruct (m w) as [[a|e'] w']; cbn; [discriminate | congruence].
Qed.

(** The exceptions of [_run_cmd]. *)
Lemma run_cmd_raises (cmd : list string) (w : World E) (e : exn) :
  fst (_run_cmd E cmd w) = Raise e ->
  match e with
  | OnePasswordRuntimeError _ | FileNotFoundError _ | OSError _
  | ValueError _ | UnicodeDecodeError _ => True
  | _ => False
  end.
Proof.
  destruct (spawn E (calls w) cmd) as [x|f] eqn:Hs.
  - rewrite (run_cmd_spawned E cmd w x Hs). unfold run_outcome.
    destruct (exit_status x =? 0)%Z; cbn; intros H; now inversion H.
  - rewrite (run_cmd_not_spawned E cmd w f Hs). cbn.
    intros H. inversion H. now destruct f.
Qed.

Lemma get_item_raises_fst (self : ref) item fields (w : World E) (e : exn) :
  fst (get_item E self item fields w) = Raise e ->
  match e with
  | OnePasswordRuntimeError _ | OnePasswordJSONError _ | FileNotFoundError _
  | OSError _ | UnicodeDecodeError _ | AttributeError _ | ValueError _
  | RecursionError _ => True
  | _ => False
  end.
Proof.
  destruct (get_item E self item fields w) as [r w'] eqn:Hg. cbn.
  intros ->. exact (get_item_raises E _ _ _ _ _ _ Hg).
Qed.

(** The exceptions of [get_document] and of [list_items]. *)
Lemma get_document_raises (self : ref) item (w : World E) (e : exn) :
  fst (get_document E self item w) = Raise e ->
  match e with
  | OnePasswordRuntimeError _ | FileNotFoundError _ | OSError _
  | ValueError _ | UnicodeDecodeError _ | AttributeError _ => True
  | _ => False
  end.
Proof.
  destruct (nth_error (objects w) self) as [o|] eqn:Ho.
  - rewrite (get_document_run E _ _ _ _ Ho).
    pose proof (run_cmd_raises (get_document_cmd (vault o) item) w) as Hr.
    destruct (_run_cmd E _ w) as [[r|e'] w']; cbn in *; [discriminate|].
    intros H. injection H as <-. specialize (Hr e' eq_refl). now destruct e'.
  - unfold get_document, bind, self_vault. rewrite Ho. cbn.
    intros H. now inversion H.
Qed.

Lemma list_items_raises (self : ref) categories tags (w : World E) (e : exn) :
  fst (list_items E self categories tags w) = Raise e ->
  match e with
  | OnePasswordRuntimeError _ | FileNotFoundError _ | OSError _
  | JSONDecodeError _ | UnicodeDecodeError _ | AttributeError _
  | ValueError _ | RecursionError _ => True
  | _ => False
  end.
Proof.
  destruct (nth_error (objects w) self) as [o|] eqn:Ho.
  - rewrite (list_items_run E _ _ _ _ _ Ho).
    pose proof (run_cmd_raises (list_items_cmd (vault o) categories tags) w)
      as Hr.
    destruct (_run_cmd E _ w) as [[r|e'] w']; cbn in *.
    + unfold decoded_or_raw.
      destruct (json_loads E (stdout r)) as [j|[m|m|m|m]]; intros H;
        now inversion H.
    + intros H. injection H as <-. specialize (Hr e' eq_refl). now destruct e'.
  - unfold list_items, bind, self_vault. rewrite Ho. cbn.
    intros H. now inversion H.
Qed.

(** The exceptions of a subscript of the result of [get_item] under
    [except KeyError]. *)
Lemma subscripted_raises (self : ref) item fields (k : string) (w : World E)
      (e : exn) :
  fst (try_except
         (x <- get_item E self item fields ;; getitem E x k)
         (except_KeyError E
            (fun e => raise (OnePasswordValueNotFound
                               ("Value not found. Got error: " ++ e)%string))) w)
  = Raise e ->
  match e with
  | OnePasswordRuntimeError _ | OnePasswordJSONError _
  | OnePasswordValueNotFound _ | FileNotFoundError _ | OSError _
  | UnicodeDecodeError _ | TypeError _ | AttributeError _ | ValueError _
  | RecursionError _ => True
  | _ => False
  end.
Proof.
  rewrite subscripted.
  destruct (get_item E self item fields w) as [[x|e'] w'] eqn:Hg.
  - unfold entry_or_ValueNotFound. cbn.
    destruct (subscript x k); intros H; now inversion H.
  - pose proof (get_item_raises E _ _ _ _ _ _ Hg) as He.
    destruct e'; try contradiction; cbn; intros H; now inversion H.
Qed.

End Surface.

(** X11: no operation of a client lets a [KeyError] out, none raises
    [OnePasswordCLINotFound] or [InvalidVersion], and the undecoded
    [JSONDecodeError] of [json.loads] comes out of [list_items] alone:
    [get_item], [get_value], [get_username], [get_password], [get_uuid]
    and [get_document] never raise it. *)
Theorem errors_the_client_never_raises (E : Env) (self : ref) (op : operation)
        (w : World E) (e : exn) :
  fst (call E self op w) = Raise e ->
  (forall k, e <> KeyError k)
  /\ (forall msg, e <> OnePasswordCLINotFound msg)
  /\ (forall text, e <> InvalidVersion text)
  /\ (forall msg, e = JSONDecodeError msg ->
                  exists categories tags, op = ListItems categories tags).
Proof.
  intros H. destruct op; cbn [call] in H; apply fst_bind_ret in H;
    unfold get_username, get_password, get_value, get_uuid in H;
    first [ apply subscripted_raises in H
          | apply get_document_raises in H
          | apply list_items_raises in H
          | apply get_item_raises_fst in H ];
    destruct e; try contradiction;
    repeat split; intros; try discriminate; eauto.
Qed.

(** [get_item] on output that is not JSON raises an error of the
    package, and [list_items] on the same output the error of the
    decoder. *)
Lemma errors_the_client_never_raises_witness :
  let E := Sample.installed 0 Sample.doc_invalid "" in
  let w := Sample.world 0 Sample.doc_invalid "" in
  fst (call E 0 (ListItems None None) w)
  = Raise (JSONDecodeError "Expecting value: line 1 column 1 (char 0)")
  /\ forall msg,
      JSONDecodeError "Expecting value: line 1 column 1 (char 0)"
      <> OnePasswordCLINotFound msg.
Proof.
  cbv zeta. split; [reflexivity|].
  exact (proj1 (proj2 (errors_the_client_never_raises
                         (Sample.installed 0 Sample.doc_invalid "") 0%nat
                         (ListItems None None)
                         (Sample.world 0 Sample.doc_invalid "") _ eq_refl))).
Defined.

(** ** Further properties of runs *)

Lemma perform_world (E : Env) (self : ref) (o : OnePassword E)
      (ops : list operation) (w : World E) :
  nth_error (objects w) self = Some o ->
  perform E self ops w
  = mkWorld
      (calls w ++ map (fun op => Invoke (command_of (vault o) op) false) ops)
      (objects w).
Proof.
  revert w. induction ops as [|op ops IH]; intros w Ho; cbn [perform map].
  - rewrite app_nil_r. now destruct w.
  - rewrite (call_world E self o op w Ho), IH by exact Ho.
    cbn. now rewrite <- app_assoc.
Qed.

(** X12: nothing is kept from one operation to the next: a program
    that performs any operations on a client, one after the other,
    makes one call of the tool for each of them, in their order, each
    with the vault of the client, whatever the earlier ones returned or
    raised; asking twice for the same item runs the tool twice. *)
Theorem every_operation_calls_the_tool (E : Env) (self : ref)
        (o : OnePassword E) (ops : list operation) (w : World E) :
  nth_error (objects w) self = Some o ->
  calls (perform E self ops w)
  = calls w ++ map (fun op => Invoke (command_of (vault o) op) false) ops
  /\ objects (perform E self ops w) = objects w.
Proof.
  intros Ho. now rewrite (perform_world E self o ops w Ho).
Qed.

(** The same item asked for twice, then its document. *)
Lemma every_operation_calls_the_tool_witness :
  let E := Sample.installed 0 Sample.doc_id "" in
  let w := Sample.world 0 Sample.doc_id "" in
  calls (perform E 0 [GetUuid "Foo"; GetUuid "Foo"; GetDocument "Foo"] w)
  = [Invoke ["op"; "--version"] true;
     Invoke ["op"; "item"; "get"; "Foo"; "--format"; "json";
             "--vault"; "Private"] false;
     Invoke ["op"; "item"; "get"; "Foo"; "--format"; "json";
             "--vault"; "Private"] false;
     Invoke ["op"; "document"; "get"; "Foo"; "--vault"; "Private"] false].
Proof.
  cbv zeta.
  exact (proj1 (every_operation_calls_the_tool _ 0%nat _
                  [GetUuid "Foo"; GetUuid "Foo"; GetDocument "Foo"]
                  (Sample.world 0 Sample.doc_id "") eq_refl)).
Defined.

(** X13: the binding of a client to its vault is permanent: after any
    number of later uses of the package (probes, listings, operations
    on this or other clients, creations of other clients) the client
    still holds the vault it was created with, and an operation on it
    calls the tool with that vault. *)
Theorem client_binding_is_permanent (E : Env) (given : option string)
        (self : ref) (op : operation) (w0 w1 w2 : World E) :
  __init__ E given w0 = (Ok self, w1) ->
  steps E w1 w2 ->
  (exists o, nth_error (objects w2) self = Some o
             /\ vault o = vault_given given)
  /\ calls (snd (call E self op w2))
     = calls w2 ++ [Invoke (command_of (vault_given given) op) false].
Proof.
  intros Hi Hs.
  destruct (init_returns E given w0 w1 self Hi) as (x & v & _ & _ & Ho).
  pose proof (steps_keep_bound E w1 w2 self _ Hs Ho) as Ho2.
  split.
  - eexists. split; [exact Ho2 | reflexivity].
  - now rewrite (call_world E self _ op w2 Ho2).
Qed.

(** A client for vault Work; then a failing lookup, a second client and
    a listing of the vaults; then a document asked of the first. *)
Lemma client_binding_is_permanent_witness :
  let E := Sample.installed 0 Sample.doc_other "" in
  let w1 := snd (__init__ E (Some "Work") (Sample.fresh E)) in
  let w2 := snd (list_vaults E
                   (snd (__init__ E None
                           (snd (call E 0 (GetPassword "foo") w1))))) in
  calls (snd (call E 0 (GetDocument "bar") w2))
  = calls w2 ++ [Invoke ["op"; "document"; "get"; "bar"; "--vault"; "Work"] false].
Proof.
  cbv zeta.
  refine (proj2 (client_binding_is_permanent
                   (Sample.installed 0 Sample.doc_other "")
                   (Some "Work") 0%nat (GetDocument "bar")
                   (Sample.fresh _) _ _ eq_refl _)).
  refine (steps_more _ _ _ _
            (steps_more _ _ _ _
               (steps_more _ _ _ _ (steps_none _ _)
                  (step_call _ 0%nat (GetPassword "foo") _))
               (step_init _ None _))
            (step_vaults _ _)).
Defined.

(** ** Further properties of the argument vectors *)

Lemma concat_comma_merge (a c : string) (rest : list string) :
  String.concat "," ((a ++ "," ++ c)%string :: rest)
  = String.concat "," (a :: c :: rest).
Proof.
  destruct rest as [|d rest]; cbn [String.concat].
  - reflexivity.
  - now rewrite !append_assoc.
Qed.

Lemma concat_cons_more (sep x y : string) (l : list string) :
  String.concat sep (x :: y :: l) = (x ++ sep ++ String.concat sep (y :: l))%string.
Proof. reflexivity. Qed.

Lemma concat_comma_merge_at (a c : string) (before rest : list string) :
  String.concat "," (before ++ (a ++ "," ++ c)%string :: rest)
  = String.concat "," (before ++ a :: c :: rest).
Proof.
  induction before as [|x before IH]; cbn [app].
  - apply concat_comma_merge.
  - destruct before as [|y before]; cbn [app] in *.
    + now rewrite !concat_cons_more, IH.
    + now rewrite (concat_cons_more "," x y), IH.
Qed.

Lemma field_selector_merge_at (f g : string) (before rest : list string) :
  field_selector (before ++ (f ++ ",label=" ++ g)%string :: rest)
  = field_selector (before ++ f :: g :: rest).
Proof.
  unfold field_selector. rewrite !map_app. cbn [map].
  rewrite <- concat_comma_merge_at.
  now rewrite <- (append_assoc "label=" f).
Qed.

(** X14: labels, categories and tags are joined by commas as they are,
    with nothing escaped: wherever it stands in its list, a field label
    that holds [,label=], and a category or a tag that holds a comma,
    give the very call that the two parts give as two elements,
    whatever the other filter of [list_items] is. *)
Theorem separators_are_not_escaped (E : Env) (self : ref) (item f g a c : string)
        (before rest : list string) (other : option (list string))
        (w : World E) :
  get_item E self item (Some (before ++ (f ++ ",label=" ++ g)%string :: rest)) w
  = get_item E self item (Some (before ++ f :: g :: rest)) w
  /\ list_items E self (Some (before ++ (a ++ "," ++ c)%string :: rest)) other w
     = list_items E self (Some (before ++ a :: c :: rest)) other w
  /\ list_items E self other (Some (before ++ (a ++ "," ++ c)%string :: rest)) w
     = list_items E self other (Some (before ++ a :: c :: rest)) w.
Proof.
  assert (Hg : forall v,
             get_item_cmd v item
               (Some (before ++ (f ++ ",label=" ++ g)%string :: rest))
             = get_item_cmd v item (Some (before ++ f :: g :: rest))).
  { intros v. rewrite !get_item_cmd_fields.
    pose proof (field_selector_merge_at f g before rest) as Hs.
    destruct before as [|y before]; cbn [app] in *; now rewrite Hs. }
  assert (Hc : forall v,
             list_items_cmd v
               (Some (before ++ (a ++ "," ++ c)%string :: rest)) other
             = list_items_cmd v (Some (before ++ a :: c :: rest)) other).
  { intros v. unfold list_items_cmd, join.
    pose proof (concat_comma_merge_at a c before rest) as Hs.
    destruct before as [|y before]; cbn [app truthy] in *; now rewrite Hs. }
  assert (Ht : forall v,
             list_items_cmd v other
               (Some (before ++ (a ++ "," ++ c)%string :: rest))
             = list_items_cmd v other (Some (before ++ a :: c :: rest))).
  { intros v. unfold list_items_cmd, join.
    pose proof (concat_comma_merge_at a c before rest) as Hs.
    destruct before as [|y before]; cbn [app truthy] in *; now rewrite Hs. }
  unfold get_item, list_items, bind.
  destruct (self_vault E self w) as [[v|e] w']; [|now repeat split].
  now rewrite Hg, Hc, Ht.
Qed.
